(** * Verification of four leaves of the Kibana code base

    - [Ilm]: the form schema of the index-lifecycle-management policy editor
      (edit_policy/form/schema.ts);
    - [AlertsApi]: the REST client of the detection-engine alerts
      (detections/containers/detection_engine/alerts/api.ts);
    - [ApmClient]: the assembly of the request-scoped APM event client
      (get_apm_event_client.ts);
    - [ThreatMatch]: the threat-match form input of the rule creation UI
      (rule_creation_ui/components/threatmatch_input/index.tsx).

    Each module embeds the source it is named after and then proves the
    properties the specification states about it. *)

From Stdlib Require Import Ascii String List ZArith Bool Lia.
Import ListNotations.
Open Scope string_scope.
Open Scope list_scope.
Set Warnings "-register-all".

(** ** JavaScript helpers shared by the modules *)

Module Js.

(** [Array.prototype.indexOf], with [-1] when the element is absent. *)
Fixpoint indexOf {A} (eqb : A -> A -> bool) (x : A) (l : list A) : Z :=
  match l with
  | [] => (-1)%Z
  | y :: tl =>
      if eqb y x then 0%Z
      else let i := indexOf eqb x tl in
           if (i <? 0)%Z then (-1)%Z else (i + 1)%Z
  end.

(** [Array.prototype.slice(start)]: a negative [start] counts from the end
    of the array, a [start] beyond the end gives the empty array. *)
Definition slice {A} (start : Z) (l : list A) : list A :=
  let len := Z.of_nat (length l) in
  let from := if (start <? 0)%Z then Z.max (len + start) 0 else Z.min start len in
  skipn (Z.to_nat from) l.

(** [Object.values] of an object kept as an association list. *)
Definition Object_values {K V} (o : list (K * V)) : list V := map snd o.

(** Splitting a dotted path ([a.b.c]) into its keys. *)
Fixpoint splitOn (sep : Ascii.ascii) (s : string) : list string :=
  match s with
  | EmptyString => [EmptyString]
  | String c rest =>
      if Ascii.eqb c sep then EmptyString :: splitOn sep rest
      else match splitOn sep rest with
           | [] => [String c EmptyString]
           | w :: ws => String c w :: ws
           end
  end.

Definition splitPath (s : string) : list string := splitOn "."%char s.

(** [String.prototype.toUpperCase] on the letters a to z. *)
Definition upperChar (c : Ascii.ascii) : Ascii.ascii :=
  let n := Ascii.nat_of_ascii c in
  if andb (Nat.leb 97 n) (Nat.leb n 122) then Ascii.ascii_of_nat (n - 32) else c.

Fixpoint toUpperCase (s : string) : string :=
  match s with
  | EmptyString => EmptyString
  | String c rest => String (upperChar c) (toUpperCase rest)
  end.

(** The first occurrence of [needle] in [s] replaced by [by_]. *)
Fixpoint replaceFirst (needle by_ s : string) : string :=
  match s with
  | EmptyString => EmptyString
  | String c rest =>
      if String.prefix needle s
      then (by_ ++ String.substring (String.length needle)
                     (String.length s - String.length needle) s)%string
      else String c (replaceFirst needle by_ rest)
  end.

End Js.

(** ** The lifecycle-policy form schema *)

Module Ilm.

(** Phases, as the string-literal union types of common/types. *)
Inductive PhaseWithTiming := TimingWarm | TimingCold | TimingFrozen | TimingDelete.
Inductive PhaseWithDownsample := DownsampleHot | DownsampleWarm | DownsampleCold.
Inductive PhaseWithPriority := PriorityHot | PriorityWarm | PriorityCold.

Definition timingName (p : PhaseWithTiming) : string :=
  match p with
  | TimingWarm => "warm" | TimingCold => "cold"
  | TimingFrozen => "frozen" | TimingDelete => "delete"
  end.

Definition downsampleName (p : PhaseWithDownsample) : string :=
  match p with
  | DownsampleHot => "hot" | DownsampleWarm => "warm" | DownsampleCold => "cold"
  end.

Definition downsample_eqb (p q : PhaseWithDownsample) : bool :=
  String.eqb (downsampleName p) (downsampleName q).

(** Translated texts stay symbolic: an entry of the [i18nTexts] table is
    named by its access path, a call of [i18n.translate] by its id and its
    default message. *)
Inductive Text :=
| I18nTexts (path : string)
| Translate (id : string) (defaultMessage : string).

(** The validators the schema wires in.  They are functions of the form
    library and of ./validations; the schema only lists them. *)
Inductive Validator :=
| emptyField (message : Text)
| isInteger (message : Text)
| numberGreaterThanField (message : Text) (than : Z)
| ifExistsNumberGreaterThanZero
| ifExistsNumberNonNegative
| minAgeGreaterThanPreviousPhase (phase : PhaseWithTiming)
| rolloverThresholdsValidator
| downsampleIntervalMultipleOfPreviousOne (phase : PhaseWithDownsample).

Record ValidationConfig := { validator : Validator }.

Inductive Serializer := stringToNumber.

Inductive Value :=
| VBool (b : bool)
| VStr (s : string)
| VNum (n : Z).

(** A field descriptor; [None] is a property the object literal leaves out. *)
Record FieldConfig := {
  label : option Text;
  defaultValue : option Value;
  helpText : option Text;
  validations : option (list ValidationConfig);
  serializer : option Serializer;
  fieldsToValidateOnChange : option (list string)
}.

(** The properties of an object literal, in the order they are written. *)
Inductive Prop_ :=
| Label (t : Text)
| DefaultValue (v : option Value)
| HelpText (t : Text)
| Validations (vs : list ValidationConfig)
| Serializer_ (s : Serializer)
| FieldsToValidateOnChange (paths : list string).

Definition noProps : FieldConfig :=
  {| label := None; defaultValue := None; helpText := None;
     validations := None; serializer := None; fieldsToValidateOnChange := None |}.

Definition setProp (c : FieldConfig) (p : Prop_) : FieldConfig :=
  match p with
  | Label t =>
      {| label := Some t; defaultValue := defaultValue c; helpText := helpText c;
         validations := validations c; serializer := serializer c;
         fieldsToValidateOnChange := fieldsToValidateOnChange c |}
  | DefaultValue v =>
      {| label := label c; defaultValue := v; helpText := helpText c;
         validations := validations c; serializer := serializer c;
         fieldsToValidateOnChange := fieldsToValidateOnChange c |}
  | HelpText t =>
      {| label := label c; defaultValue := defaultValue c; helpText := Some t;
         validations := validations c; serializer := serializer c;
         fieldsToValidateOnChange := fieldsToValidateOnChange c |}
  | Validations vs =>
      {| label := label c; defaultValue := defaultValue c; helpText := helpText c;
         validations := Some vs; serializer := serializer c;
         fieldsToValidateOnChange := fieldsToValidateOnChange c |}
  | Serializer_ s =>
      {| label := label c; defaultValue := defaultValue c; helpText := helpText c;
         validations := validations c; serializer := Some s;
         fieldsToValidateOnChange := fieldsToValidateOnChange c |}
  | FieldsToValidateOnChange ps =>
      {| label := label c; defaultValue := defaultValue c; helpText := helpText c;
         validations := validations c; serializer := serializer c;
         fieldsToValidateOnChange := Some ps |}
  end.

Definition object (props : list Prop_) : FieldConfig := fold_left setProp props noProps.

(** The schema: nested objects whose leaves are field descriptors. *)
Inductive FormSchema :=
| Field (config : FieldConfig)
| Group (members : list (string * FormSchema)).

(** The descriptor a path of keys leads to, if it leads to one. *)
Fixpoint getField (s : FormSchema) (path : list string) {struct s} : option FieldConfig :=
  match s, path with
  | Field c, [] => Some c
  | Field _, _ :: _ => None
  | Group _, [] => None
  | Group members, k :: rest =>
      (fix find (ms : list (string * FormSchema)) : option FieldConfig :=
         match ms with
         | [] => None
         | (k', child) :: tl => if String.eqb k' k then getField child rest else find tl
         end) members
  end.

(** The descriptor at a dotted path, as the form library addresses fields. *)
Definition fieldAt (s : FormSchema) (path : string) : option FieldConfig :=
  getField s (Js.splitPath path).

Section Schema.

(** Constants the schema imports from modules outside this file. *)
Variable defaultIndexPriority : PhaseWithPriority -> Value.
Variable CLOUD_DEFAULT_REPO : string.
Variable ROLLOVER_FORM_PATHS : list (string * string).

Definition rolloverFormPaths : list string := Js.Object_values ROLLOVER_FORM_PATHS.

Definition maxNumSegmentsField : FieldConfig := object [
  Label (I18nTexts "editPolicy.maxNumSegmentsFieldLabel");
  Validations [
    {| validator := emptyField
         (Translate "xpack.indexLifecycleMgmt.editPolicy.forcemerge.numberOfSegmentsRequiredError"
                    "A value for number of segments is required.") |};
    {| validator := ifExistsNumberGreaterThanZero |}
  ];
  Serializer_ stringToNumber
].

Definition searchableSnapshotFields : FormSchema := Group [
  ("snapshot_repository", Field (object [
     Label (I18nTexts "editPolicy.searchableSnapshotsRepoFieldLabel");
     Validations [
       {| validator := emptyField (I18nTexts "editPolicy.errors.searchableSnapshotRepoRequired") |}
     ];
     HelpText (Translate "xpack.indexLifecycleMgmt.editPolicy.searchableSnapshot.repositoryHelpText"
                         "Each phase uses the same snapshot repository.")
   ]));
  ("storage", Field (object [
     Label (Translate "xpack.indexLifecycleMgmt.editPolicy.searchableSnapshot.storageLabel" "Storage");
     HelpText (Translate "xpack.indexLifecycleMgmt.editPolicy.searchableSnapshot.storageHelpText"
       "Type of snapshot mounted for the searchable snapshot. This is an advanced option. Only change it if you know what you're doing.")
   ]))
].

Definition numberOfReplicasField : FieldConfig := object [
  Label (I18nTexts "editPolicy.numberOfReplicasLabel");
  Validations [
    {| validator := emptyField (I18nTexts "editPolicy.errors.numberRequired") |};
    {| validator := ifExistsNumberNonNegative |}
  ];
  Serializer_ stringToNumber
].

Definition numberOfShardsField : FieldConfig := object [
  Label (I18nTexts "editPolicy.shrinkNumberOfShardsLabel");
  DefaultValue (Some (VNum 1));
  Validations [
    {| validator := emptyField (I18nTexts "editPolicy.errors.numberRequired") |};
    {| validator := numberGreaterThanField (I18nTexts "editPolicy.errors.numberGreatThan0Required") 0 |}
  ];
  Serializer_ stringToNumber
].

Definition shardSizeField : FieldConfig := object [
  Label (I18nTexts "editPolicy.maxPrimaryShardSizeLabel");
  Validations [
    {| validator := emptyField (I18nTexts "editPolicy.errors.numberRequired") |};
    {| validator := numberGreaterThanField (I18nTexts "editPolicy.errors.numberGreatThan0Required") 0 |}
  ];
  Serializer_ stringToNumber
].

Definition allowWriteAfterShrinkField : FieldConfig := object [
  Label (I18nTexts "editPolicy.allowWriteAfterShrinkLabel");
  DefaultValue (Some (VBool false))
].

Definition getPriorityField (phase : PhaseWithPriority) : FieldConfig := object [
  DefaultValue (Some (defaultIndexPriority phase));
  Label (I18nTexts "editPolicy.indexPriorityFieldLabel");
  Validations [
    {| validator := emptyField (I18nTexts "editPolicy.errors.numberRequired") |};
    {| validator := ifExistsNumberNonNegative |}
  ];
  Serializer_ stringToNumber
].

(** [getMinAgeField(phase, defaultValue?)]: the empty array keeps a change
    of the value from triggering validation; validation is triggered by the
    millisecond variant under [_meta]. *)
Definition getMinAgeField (phase : PhaseWithTiming) (defaultValue : option Value) : FieldConfig :=
  object [
    DefaultValue defaultValue;
    FieldsToValidateOnChange [];
    Validations [
      {| validator := emptyField (I18nTexts "editPolicy.errors.numberRequired") |};
      {| validator := ifExistsNumberNonNegative |};
      {| validator := isInteger (I18nTexts "editPolicy.errors.integerRequired") |};
      {| validator := minAgeGreaterThanPreviousPhase phase |}
    ]
  ].

Definition getDownsampleFieldsToValidateOnChange
  (p : PhaseWithDownsample) (includeCurrentPhase : bool) : list string :=
  let allPhases := [DownsampleHot; DownsampleWarm; DownsampleCold] in
  let getIntervalSizePath := fun currentPhase =>
    ("_meta." ++ downsampleName currentPhase ++ ".downsample.fixedIntervalSize")%string in
  let omitPreviousPhases := fun currentPhase =>
    Js.slice (Js.indexOf downsample_eqb currentPhase allPhases
              + (if includeCurrentPhase then 0 else 1))%Z allPhases in
  map getIntervalSizePath (omitPreviousPhases p).

Definition getDownsampleSchema (phase : PhaseWithDownsample) : FormSchema := Group [
  ("enabled", Field (object [
     DefaultValue (Some (VBool false));
     Label (I18nTexts "editPolicy.downsampleEnabledFieldLabel");
     FieldsToValidateOnChange (getDownsampleFieldsToValidateOnChange phase false)
   ]));
  ("fixedIntervalSize", Field (object [
     Label (I18nTexts "editPolicy.downsampleIntervalFieldLabel");
     FieldsToValidateOnChange (getDownsampleFieldsToValidateOnChange phase true);
     Validations [
       {| validator := emptyField (I18nTexts "editPolicy.errors.numberRequired") |};
       {| validator := ifExistsNumberGreaterThanZero |};
       {| validator := isInteger (I18nTexts "editPolicy.errors.integerRequired") |};
       {| validator := downsampleIntervalMultipleOfPreviousOne phase |}
     ]
   ]));
  ("fixedIntervalUnits", Field (object [
     DefaultValue (Some (VStr "d"));
     FieldsToValidateOnChange (getDownsampleFieldsToValidateOnChange phase true)
   ]))
].

Definition getSchema (isCloudEnabled : bool) : FormSchema := Group [
  ("_meta", Group [
    ("hot", Group [
      ("isUsingDefaultRollover", Field (object [
         DefaultValue (Some (VBool true));
         Label (Translate "xpack.indexLifecycleMgmt.hotPhase.isUsingDefaultRollover"
                          "Use recommended defaults")
       ]));
      ("customRollover", Group [
        ("enabled", Field (object [
           DefaultValue (Some (VBool true));
           Label (Translate "xpack.indexLifecycleMgmt.hotPhase.enableRolloverLabel"
                            "Enable rollover")
         ]));
        ("maxStorageSizeUnit", Field (object [ DefaultValue (Some (VStr "gb")) ]));
        ("maxPrimaryShardSizeUnit", Field (object [ DefaultValue (Some (VStr "gb")) ]));
        ("maxAgeUnit", Field (object [ DefaultValue (Some (VStr "d")) ]))
      ]);
      ("bestCompression", Field (object [
         Label (I18nTexts "editPolicy.bestCompressionFieldLabel")
       ]));
      ("readonlyEnabled", Field (object [
         DefaultValue (Some (VBool false));
         Label (I18nTexts "editPolicy.readonlyEnabledFieldLabel")
       ]));
      ("shrink", Group [
        ("isUsingShardSize", Field (object [ DefaultValue (Some (VBool false)) ]));
        ("maxPrimaryShardSizeUnits", Field (object [ DefaultValue (Some (VStr "gb")) ]))
      ]);
      ("downsample", getDownsampleSchema DownsampleHot)
    ]);
    ("warm", Group [
      ("enabled", Field (object [
         DefaultValue (Some (VBool false));
         Label (Translate "xpack.indexLifecycleMgmt.editPolicy.warmPhase.activateWarmPhaseSwitchLabel"
                          "Activate warm phase")
       ]));
      ("minAgeUnit", Field (object [ DefaultValue (Some (VStr "d")) ]));
      ("minAgeToMilliSeconds", Field (object [
         DefaultValue (Some (VNum (-1)));
         FieldsToValidateOnChange [
           "phases.warm.min_age";
           "phases.cold.min_age";
           "phases.frozen.min_age";
           "phases.delete.min_age"
         ]
       ]));
      ("bestCompression", Field (object [
         Label (I18nTexts "editPolicy.bestCompressionFieldLabel")
       ]));
      ("dataTierAllocationType", Field (object [
         Label (I18nTexts "editPolicy.allocationTypeOptionsFieldLabel")
       ]));
      ("allocationNodeAttribute", Field (object [
         Label (I18nTexts "editPolicy.allocationNodeAttributeFieldLabel")
       ]));
      ("readonlyEnabled", Field (object [
         DefaultValue (Some (VBool false));
         Label (I18nTexts "editPolicy.readonlyEnabledFieldLabel")
       ]));
      ("shrink", Group [
        ("isUsingShardSize", Field (object [ DefaultValue (Some (VBool false)) ]));
        ("maxPrimaryShardSizeUnits", Field (object [ DefaultValue (Some (VStr "gb")) ]))
      ]);
      ("downsample", getDownsampleSchema DownsampleWarm)
    ]);
    ("cold", Group [
      ("enabled", Field (object [
         DefaultValue (Some (VBool false));
         Label (Translate "xpack.indexLifecycleMgmt.editPolicy.coldPhase.activateColdPhaseSwitchLabel"
                          "Activate cold phase")
       ]));
      ("readonlyEnabled", Field (object [
         DefaultValue (Some (VBool false));
         Label (I18nTexts "editPolicy.readonlyEnabledFieldLabel")
       ]));
      ("minAgeUnit", Field (object [ DefaultValue (Some (VStr "d")) ]));
      ("minAgeToMilliSeconds", Field (object [
         DefaultValue (Some (VNum (-1)));
         FieldsToValidateOnChange [
           "phases.cold.min_age";
           "phases.frozen.min_age";
           "phases.delete.min_age"
         ]
       ]));
      ("dataTierAllocationType", Field (object [
         Label (I18nTexts "editPolicy.allocationTypeOptionsFieldLabel")
       ]));
      ("allocationNodeAttribute", Field (object [
         Label (I18nTexts "editPolicy.allocationNodeAttributeFieldLabel")
       ]));
      ("downsample", getDownsampleSchema DownsampleCold)
    ]);
    ("frozen", Group [
      ("enabled", Field (object [
         DefaultValue (Some (VBool false));
         Label (Translate "xpack.indexLifecycleMgmt.editPolicy.frozenPhase.activateFrozenPhaseSwitchLabel"
                          "Activate frozen phase")
       ]));
      ("minAgeUnit", Field (object [ DefaultValue (Some (VStr "d")) ]));
      ("minAgeToMilliSeconds", Field (object [
         DefaultValue (Some (VNum (-1)));
         FieldsToValidateOnChange ["phases.frozen.min_age"; "phases.delete.min_age"]
       ]));
      ("dataTierAllocationType", Field (object [
         Label (I18nTexts "editPolicy.allocationTypeOptionsFieldLabel")
       ]));
      ("allocationNodeAttribute", Field (object [
         Label (I18nTexts "editPolicy.allocationNodeAttributeFieldLabel")
       ]))
    ]);
    ("delete", Group [
      ("enabled", Field (object [
         DefaultValue (Some (VBool false));
         Label (Translate "xpack.indexLifecycleMgmt.editPolicy.deletePhase.activateWarmPhaseSwitchLabel"
                          "Activate delete phase")
       ]));
      ("minAgeUnit", Field (object [ DefaultValue (Some (VStr "d")) ]));
      ("minAgeToMilliSeconds", Field (object [
         DefaultValue (Some (VNum (-1)));
         FieldsToValidateOnChange ["phases.delete.min_age"]
       ]))
    ]);
    ("searchableSnapshot", Group [
      ("repository", Field (object [
         DefaultValue (Some (VStr (if isCloudEnabled then CLOUD_DEFAULT_REPO else "")))
       ]))
    ])
  ]);
  ("phases", Group [
    ("hot", Group [
      ("actions", Group [
        ("rollover", Group [
          ("max_age", Field (object [
             Label (I18nTexts "editPolicy.maxAgeLabel");
             Validations [
               {| validator := rolloverThresholdsValidator |};
               {| validator := ifExistsNumberGreaterThanZero |};
               {| validator := isInteger (I18nTexts "editPolicy.errors.integerRequired") |}
             ];
             FieldsToValidateOnChange rolloverFormPaths
           ]));
          ("max_docs", Field (object [
             Label (I18nTexts "editPolicy.maxDocsLabel");
             Validations [
               {| validator := rolloverThresholdsValidator |};
               {| validator := ifExistsNumberGreaterThanZero |};
               {| validator := isInteger (I18nTexts "editPolicy.errors.integerRequired") |}
             ];
             Serializer_ stringToNumber;
             FieldsToValidateOnChange rolloverFormPaths
           ]));
          ("max_primary_shard_size", Field (object [
             Label (I18nTexts "editPolicy.maxPrimaryShardSizeLabel");
             Validations [
               {| validator := rolloverThresholdsValidator |};
               {| validator := ifExistsNumberGreaterThanZero |}
             ];
             FieldsToValidateOnChange rolloverFormPaths
           ]));
          ("max_primary_shard_docs", Field (object [
             Label (I18nTexts "editPolicy.maxPrimaryShardDocsLabel");
             Validations [
               {| validator := rolloverThresholdsValidator |};
               {| validator := ifExistsNumberGreaterThanZero |};
               {| validator := isInteger (I18nTexts "editPolicy.errors.integerRequired") |}
             ];
             Serializer_ stringToNumber;
             FieldsToValidateOnChange rolloverFormPaths
           ]));
          ("max_size", Field (object [
             Label (I18nTexts "editPolicy.maxSizeLabel");
             Validations [
               {| validator := rolloverThresholdsValidator |};
               {| validator := ifExistsNumberGreaterThanZero |}
             ];
             FieldsToValidateOnChange rolloverFormPaths
           ]))
        ]);
        ("forcemerge", Group [
          ("max_num_segments", Field maxNumSegmentsField)
        ]);
        ("shrink", Group [
          ("number_of_shards", Field numberOfShardsField);
          ("max_primary_shard_size", Field shardSizeField);
          ("allow_write_after_shrink", Field allowWriteAfterShrinkField)
        ]);
        ("set_priority", Group [
          ("priority", Field (getPriorityField PriorityHot))
        ]);
        ("searchable_snapshot", searchableSnapshotFields)
      ])
    ]);
    ("warm", Group [
      ("min_age", Field (getMinAgeField TimingWarm None));
      ("actions", Group [
        ("allocate", Group [
          ("number_of_replicas", Field numberOfReplicasField)
        ]);
        ("shrink", Group [
          ("number_of_shards", Field numberOfShardsField);
          ("max_primary_shard_size", Field shardSizeField);
          ("allow_write_after_shrink", Field allowWriteAfterShrinkField)
        ]);
        ("forcemerge", Group [
          ("max_num_segments", Field maxNumSegmentsField)
        ]);
        ("set_priority", Group [
          ("priority", Field (getPriorityField PriorityWarm))
        ])
      ])
    ]);
    ("cold", Group [
      ("min_age", Field (getMinAgeField TimingCold None));
      ("actions", Group [
        ("allocate", Group [
          ("number_of_replicas", Field numberOfReplicasField)
        ]);
        ("set_priority", Group [
          ("priority", Field (getPriorityField PriorityCold))
        ]);
        ("searchable_snapshot", searchableSnapshotFields)
      ])
    ]);
    ("frozen", Group [
      ("min_age", Field (getMinAgeField TimingFrozen None));
      ("actions", Group [
        ("searchable_snapshot", searchableSnapshotFields)
      ])
    ]);
    ("delete", Group [
      ("min_age", Field (getMinAgeField TimingDelete (Some (VStr "365"))));
      ("actions", Group [
        ("wait_for_snapshot", Group [
          ("policy", Field (object [
             Label (Translate "xpack.indexLifecycleMgmt.editPolicy.waitForSnapshot.snapshotPolicyFieldLabel"
                              "Policy name (optional)")
           ]))
        ]);
        ("delete", Group [
          ("delete_searchable_snapshot", Field (object [
             Label (Translate "xpack.indexLifecycleMgmt.editPolicy.deleteSearchableSnapshotFieldLabel"
                              "Delete searchable snapshot");
             DefaultValue (Some (VBool true))
           ]))
        ])
      ])
    ])
  ])
].

(** *** What the specification says, in its own words *)

(** The timed phases and the downsampling phases, in lifecycle order. *)
Definition timedPhases : list PhaseWithTiming :=
  [TimingWarm; TimingCold; TimingFrozen; TimingDelete].
Definition downsamplePhases : list PhaseWithDownsample :=
  [DownsampleHot; DownsampleWarm; DownsampleCold].

Definition timingRank (p : PhaseWithTiming) : nat :=
  match p with TimingWarm => 0 | TimingCold => 1 | TimingFrozen => 2 | TimingDelete => 3 end.
Definition downsampleRank (p : PhaseWithDownsample) : nat :=
  match p with DownsampleHot => 0 | DownsampleWarm => 1 | DownsampleCold => 2 end.

(** Phase [p] and every later phase; the strictly later phases. *)
Definition timedFrom (p : PhaseWithTiming) : list PhaseWithTiming :=
  filter (fun q => Nat.leb (timingRank p) (timingRank q)) timedPhases.
Definition downsampleFrom (p : PhaseWithDownsample) : list PhaseWithDownsample :=
  filter (fun q => Nat.leb (downsampleRank p) (downsampleRank q)) downsamplePhases.
Definition downsampleAfter (p : PhaseWithDownsample) : list PhaseWithDownsample :=
  filter (fun q => Nat.ltb (downsampleRank p) (downsampleRank q)) downsamplePhases.

Definition minAgePath (p : PhaseWithTiming) : string :=
  ("phases." ++ timingName p ++ ".min_age")%string.
Definition minAgeToMilliSecondsPath (p : PhaseWithTiming) : string :=
  ("_meta." ++ timingName p ++ ".minAgeToMilliSeconds")%string.
Definition intervalSizePath (p : PhaseWithDownsample) : string :=
  ("_meta." ++ downsampleName p ++ ".downsample.fixedIntervalSize")%string.
Definition intervalUnitsPath (p : PhaseWithDownsample) : string :=
  ("_meta." ++ downsampleName p ++ ".downsample.fixedIntervalUnits")%string.
Definition downsampleEnabledPath (p : PhaseWithDownsample) : string :=
  ("_meta." ++ downsampleName p ++ ".downsample.enabled")%string.
Definition repositoryPath : list string := ["_meta"; "searchableSnapshot"; "repository"].

Definition validators (c : FieldConfig) : option (list Validator) :=
  option_map (map validator) (validations c).

(** The ordered validators of the field at a dotted path. *)
Definition validatorsAt (s : FormSchema) (path : string) : option (list Validator) :=
  match fieldAt s path with
  | Some c => validators c
  | None => None
  end.

(** The paths a change of the field at a dotted path re-validates. *)
Definition revalidates (s : FormSchema) (path : string) : option (list string) :=
  match fieldAt s path with
  | Some c => fieldsToValidateOnChange c
  | None => None
  end.

(** The descriptor of the repository default: nothing but a default value. *)
Definition repositoryField (isCloudEnabled : bool) : FieldConfig :=
  {| label := None;
     defaultValue := Some (VStr (if isCloudEnabled then CLOUD_DEFAULT_REPO else ""));
     helpText := None; validations := None; serializer := None;
     fieldsToValidateOnChange := None |}.

End Schema.

(** Sample values of the imported constants, for evaluating the schema. *)
Definition sampleIndexPriority (p : PhaseWithPriority) : Value :=
  match p with
  | PriorityHot => VStr "100"
  | PriorityWarm => VStr "50"
  | PriorityCold => VStr "0"
  end.
Definition sampleCloudRepo : string := "found-snapshots".
Definition sampleRolloverPaths : list (string * string) :=
  [("maxAge", "phases.hot.actions.rollover.max_age");
   ("maxDocs", "phases.hot.actions.rollover.max_docs");
   ("maxSize", "phases.hot.actions.rollover.max_size")].
Definition sampleSchema (isCloudEnabled : bool) : FormSchema :=
  getSchema sampleIndexPriority sampleCloudRepo sampleRolloverPaths isCloudEnabled.

(** *** Walking the schema *)

(** Every field descriptor of a schema with the keys that lead to it, in
    the order the object literals list them. *)
Fixpoint allFields (prefix : list string) (s : FormSchema) {struct s}
  : list (list string * FieldConfig) :=
  match s with
  | Field c => [(prefix, c)]
  | Group members =>
      (fix walk (ms : list (string * FormSchema)) : list (list string * FieldConfig) :=
         match ms with
         | [] => []
         | (k, child) :: tl => allFields (prefix ++ [k]) child ++ walk tl
         end) members
  end.

Definition path_eqb (a b : list string) : bool :=
  if list_eq_dec String.string_dec a b then true else false.

(** No path occurs twice. *)
Fixpoint distinctPaths (l : list (list string)) : bool :=
  match l with
  | [] => true
  | x :: tl => negb (existsb (path_eqb x) tl) && distinctPaths tl
  end.

Definition isRequired (v : Validator) : bool :=
  match v with emptyField _ => true | _ => false end.

(** A required check, where there is one, comes first and only once. *)
Definition requiredFirst (vs : list Validator) : bool :=
  match vs with
  | [] => true
  | _ :: tl => forallb (fun v => negb (isRequired v)) tl
  end.

(** Every validated field of a schema has its required check first. *)
Definition requiredChecksFirst (s : FormSchema) : bool :=
  forallb (fun pc => match validators (snd pc) with
                     | Some vs => requiredFirst vs
                     | None => true
                     end) (allFields [] s).

(** The keys under which a phase keeps its searchable-snapshot fields. *)
Definition searchableSnapshotOf (phase : string) : list string :=
  ["phases"; phase; "actions"; "searchable_snapshot"].

End Ilm.

(** ** The alerts REST client *)

Module AlertsApi.

(** JSON values: request payloads and parsed responses. *)
Inductive Json :=
| JNull
| JBool (b : bool)
| JNum (n : Z)
| JStr (s : string)
| JArr (items : list Json)
| JObj (members : list (string * Json)).

(** A request body is what [JSON.stringify] makes of a value; the
    serialisation itself is the platform's and stays symbolic. *)
Inductive Body := JSON_stringify (value : Json).

(** An [AbortSignal] is a token of the caller's, compared by identity. *)
Inductive AbortSignal := abortSignal (id : nat).

(** The options object handed to [http.fetch]; [None] is a property the
    literal leaves out or an argument that is undefined. *)
Record FetchOptions := {
  version : option string;
  method : option string;
  body : option Body;
  signal : option AbortSignal;
  query : option (list (string * list string))
}.

(** The payload of the host-isolation collaborators. *)
Record ResponseActionsRequestBody := {
  endpoint_ids : list string;
  comment : string;
  case_ids : option (list string);
  agent_type : string
}.

(** What a function of this file asks of the outside: a fetch on the
    ambient HTTP service, or one of the two imported isolation helpers. *)
Inductive Call :=
| HttpFetch (path : string) (options : FetchOptions)
| IsolateHost (params : ResponseActionsRequestBody)
| UnIsolateHost (params : ResponseActionsRequestBody).

Inductive Error := error (message : string).

(** How a promise settles. *)
Inductive Outcome (R : Type) :=
| Resolved (r : R)
| Rejected (e : Error).
Arguments Resolved {R} r.
Arguments Rejected {R} e.

(** Asynchronous computations over [Call]: the functions of this file are
    [async] arrows, so each denotes a tree of calls ending in a value or in
    a rejection. *)
Inductive Async (R : Type) :=
| Return (r : R)
| Throw (e : Error)
| Perform (c : Call) (k : Outcome Json -> Async R).
Arguments Return {R} r.
Arguments Throw {R} e.
Arguments Perform {R} c k.

Fixpoint bind {A B} (p : Async A) (f : A -> Async B) : Async B :=
  match p with
  | Return r => f r
  | Throw e => Throw e
  | Perform c k => Perform c (fun o => bind (k o) f)
  end.

(** The promise a call returns: it resolves with the parsed response or
    rejects with the transport's error. *)
Definition promiseOf (c : Call) : Async Json :=
  Perform c (fun o => match o with Resolved r => Return r | Rejected e => Throw e end).

(** The environment answers each call, knowing the calls made before it. *)
Definition Env := list Call -> Call -> Outcome Json.

(** Running a computation: the calls it makes, in order, and how its
    promise settles. *)
Fixpoint runFrom (env : Env) (history : list Call) {R} (p : Async R)
  : list Call * Outcome R :=
  match p with
  | Return r => (history, Resolved r)
  | Throw e => (history, Rejected e)
  | Perform c k => runFrom env (history ++ [c]) (k (env history c))
  end.

Definition run (env : Env) {R} (p : Async R) : list Call * Outcome R :=
  runFrom env [] p.

(** Constants and helpers imported from modules outside this file. *)
Record Imports := {
  DETECTION_ENGINE_QUERY_SIGNALS_URL : string;
  DETECTION_ENGINE_SIGNALS_STATUS_URL : string;
  DETECTION_ENGINE_INDEX_URL : string;
  DETECTION_ENGINE_PRIVILEGES_URL : string;
  ALERTS_AS_DATA_FIND_URL : string;
  DETECTION_ENGINE_ALERTS_INDEX_URL : string;
  HOST_METADATA_GET_ROUTE : string;
  getCasesFromAlertsUrl : string -> string;
  resolvePathVariables : string -> list (string * string) -> string
}.

(** Argument objects of the exported functions. *)
Record QueryAlerts := { qa_query : Json; qa_signal : option AbortSignal }.
Record UpdateAlertStatusByQueryProps :=
  { uq_query : Json; uq_status : string; uq_signal : option AbortSignal }.
Record UpdateAlertStatusByIdsProps :=
  { ui_signalIds : list string; ui_status : string; ui_signal : option AbortSignal }.
Record BasicSignals := { bs_signal : option AbortSignal }.
Record HostIsolationProps := {
  hi_endpointId : string;
  hi_comment : option string;
  hi_caseIds : option (list string);
  hi_agentType : string
}.
Record CaseIdsProps := { ci_alertId : string; ci_owner : list string }.
Record HostMetadataProps := { hm_agentId : string; hm_signal : option AbortSignal }.

Section Client.

Variable imports : Imports.

(** [KibanaServices.get().http.fetch(path, options)] *)
Definition http_fetch (path : string) (options : FetchOptions) : Async Json :=
  promiseOf (HttpFetch path options).

(** The imported collaborators of common/lib/endpoint/endpoint_isolation. *)
Definition isolateHost (params : ResponseActionsRequestBody) : Async Json :=
  promiseOf (IsolateHost params).
Definition unIsolateHost (params : ResponseActionsRequestBody) : Async Json :=
  promiseOf (UnIsolateHost params).

Definition fetchQueryAlerts (a : QueryAlerts) : Async Json :=
  http_fetch (DETECTION_ENGINE_QUERY_SIGNALS_URL imports)
    {| version := Some "2023-10-31";
       method := Some "POST";
       body := Some (JSON_stringify (qa_query a));
       signal := qa_signal a;
       query := None |}.

Definition fetchQueryRuleRegistryAlerts (a : QueryAlerts) : Async Json :=
  http_fetch (ALERTS_AS_DATA_FIND_URL imports)
    {| version := None;
       method := Some "POST";
       body := Some (JSON_stringify (qa_query a));
       signal := qa_signal a;
       query := None |}.

Definition updateAlertStatusByQuery (a : UpdateAlertStatusByQueryProps) : Async Json :=
  http_fetch (DETECTION_ENGINE_SIGNALS_STATUS_URL imports)
    {| version := Some "2023-10-31";
       method := Some "POST";
       body := Some (JSON_stringify (JObj [
         ("conflicts", JStr "proceed");
         ("status", JStr (uq_status a));
         ("query", uq_query a)
       ]));
       signal := uq_signal a;
       query := None |}.

Definition updateAlertStatusByIds (a : UpdateAlertStatusByIdsProps) : Async Json :=
  http_fetch (DETECTION_ENGINE_SIGNALS_STATUS_URL imports)
    {| version := Some "2023-10-31";
       method := Some "POST";
       body := Some (JSON_stringify (JObj [
         ("status", JStr (ui_status a));
         ("signal_ids", JArr (map JStr (ui_signalIds a)))
       ]));
       signal := ui_signal a;
       query := None |}.

Definition getSignalIndex (a : BasicSignals) : Async Json :=
  http_fetch (DETECTION_ENGINE_INDEX_URL imports)
    {| version := Some "2023-10-31"; method := Some "GET"; body := None;
       signal := bs_signal a; query := None |}.

Definition checkSignalIndex (a : BasicSignals) : Async Json :=
  http_fetch (DETECTION_ENGINE_ALERTS_INDEX_URL imports)
    {| version := Some "1"; method := Some "GET"; body := None;
       signal := bs_signal a; query := None |}.

Definition getUserPrivilege (a : BasicSignals) : Async Json :=
  http_fetch (DETECTION_ENGINE_PRIVILEGES_URL imports)
    {| version := Some "2023-10-31"; method := Some "GET"; body := None;
       signal := bs_signal a; query := None |}.

Definition createSignalIndex (a : BasicSignals) : Async Json :=
  http_fetch (DETECTION_ENGINE_INDEX_URL imports)
    {| version := Some "2023-10-31"; method := Some "POST"; body := None;
       signal := bs_signal a; query := None |}.

(** The parameter default [comment = ''] of the two isolation functions. *)
Definition orDefault {A} (d : A) (o : option A) : A :=
  match o with Some x => x | None => d end.

Definition createHostIsolation (a : HostIsolationProps) : Async Json :=
  isolateHost
    {| endpoint_ids := [hi_endpointId a];
       comment := orDefault "" (hi_comment a);
       case_ids := hi_caseIds a;
       agent_type := hi_agentType a |}.

Definition createHostUnIsolation (a : HostIsolationProps) : Async Json :=
  unIsolateHost
    {| endpoint_ids := [hi_endpointId a];
       comment := orDefault "" (hi_comment a);
       case_ids := hi_caseIds a;
       agent_type := hi_agentType a |}.

(** [{ ...(owner.length > 0 ? { owner } : {}) }] *)
Definition getCaseIdsFromAlertId (a : CaseIdsProps) : Async Json :=
  http_fetch (getCasesFromAlertsUrl imports (ci_alertId a))
    {| version := None;
       method := Some "get";
       body := None;
       signal := None;
       query := Some (List.app (if Nat.ltb 0 (List.length (ci_owner a))
                                then [("owner", ci_owner a)] else []) []) |}.

Definition getHostMetadata (a : HostMetadataProps) : Async Json :=
  http_fetch (resolvePathVariables imports (HOST_METADATA_GET_ROUTE imports)
                [("id", hm_agentId a)])
    {| version := Some "2023-10-31"; method := Some "GET"; body := None;
       signal := hm_signal a; query := None |}.

(** The exports of the file, each with its argument. *)
Inductive Exported :=
| FetchQueryAlerts (a : QueryAlerts)
| FetchQueryRuleRegistryAlerts (a : QueryAlerts)
| UpdateAlertStatusByQuery (a : UpdateAlertStatusByQueryProps)
| UpdateAlertStatusByIds (a : UpdateAlertStatusByIdsProps)
| GetSignalIndex (a : BasicSignals)
| CheckSignalIndex (a : BasicSignals)
| GetUserPrivilege (a : BasicSignals)
| CreateSignalIndex (a : BasicSignals)
| CreateHostIsolation (a : HostIsolationProps)
| CreateHostUnIsolation (a : HostIsolationProps)
| GetCaseIdsFromAlertId (a : CaseIdsProps)
| GetHostMetadata (a : HostMetadataProps).

Definition invoke (f : Exported) : Async Json :=
  match f with
  | FetchQueryAlerts a => fetchQueryAlerts a
  | FetchQueryRuleRegistryAlerts a => fetchQueryRuleRegistryAlerts a
  | UpdateAlertStatusByQuery a => updateAlertStatusByQuery a
  | UpdateAlertStatusByIds a => updateAlertStatusByIds a
  | GetSignalIndex a => getSignalIndex a
  | CheckSignalIndex a => checkSignalIndex a
  | GetUserPrivilege a => getUserPrivilege a
  | CreateSignalIndex a => createSignalIndex a
  | CreateHostIsolation a => createHostIsolation a
  | CreateHostUnIsolation a => createHostUnIsolation a
  | GetCaseIdsFromAlertId a => getCaseIdsFromAlertId a
  | GetHostMetadata a => getHostMetadata a
  end.

(** *** What the specification says, in its own words *)

(** Method names are compared without regard to case. *)
Definition methodIs (name : string) (o : FetchOptions) : bool :=
  match method o with
  | Some m => String.eqb (Js.toUpperCase m) name
  | None => false
  end.

(** The keys of a JSON object, in order. *)
Definition keysOf (j : Json) : list string :=
  match j with JObj ms => map fst ms | _ => [] end.

Definition member (k : string) (j : Json) : option Json :=
  match j with
  | JObj ms => option_map snd (find (fun kv => String.eqb (fst kv) k) ms)
  | _ => None
  end.

(** An HTTP request, by what the specification fixes of it. *)
Inductive Payload :=
| NoBody
| JsonBody (b : Body)
| ActionBody (params : ResponseActionsRequestBody).

Record HttpRequest := {
  rq_method : string;
  rq_path : string;
  rq_payload : Payload
}.

(** The endpoints of the isolation collaborator. *)
Record IsolationEndpoints := {
  isolate_method : string;
  ISOLATE_HOST_ROUTE : string;
  unisolate_method : string;
  UNISOLATE_HOST_ROUTE : string
}.

Variable endpoints : IsolationEndpoints.

(** Modelled from the spec: [isolateHost] and [unIsolateHost]
    (common/lib/endpoint/endpoint_isolation) are not among the sources.
    The specification lists the host-isolation and un-isolation actions
    among the REST endpoints the client consumes, delegated to a separate
    collaborator, and has every export perform exactly one HTTP call with a
    fixed method, path and body shape: a call of either helper is one HTTP
    request to an endpoint of the collaborator, method and path being the
    collaborator's constants and the body the payload it is handed.  A
    fetch of this file is the request its arguments spell out. *)
Definition httpRequestOf (c : Call) : HttpRequest :=
  match c with
  | HttpFetch path o =>
      {| rq_method := Js.toUpperCase (orDefault "" (method o));
         rq_path := path;
         rq_payload := match body o with Some b => JsonBody b | None => NoBody end |}
  | IsolateHost params =>
      {| rq_method := isolate_method endpoints;
         rq_path := ISOLATE_HOST_ROUTE endpoints;
         rq_payload := ActionBody params |}
  | UnIsolateHost params =>
      {| rq_method := unisolate_method endpoints;
         rq_path := UNISOLATE_HOST_ROUTE endpoints;
         rq_payload := ActionBody params |}
  end.

(** The endpoint of each export as the specification lists them: method,
    path and what the body is made of. *)
Definition endpointOf (f : Exported) : HttpRequest :=
  match f with
  | FetchQueryAlerts a =>
      {| rq_method := "POST";
         rq_path := DETECTION_ENGINE_QUERY_SIGNALS_URL imports;
         rq_payload := JsonBody (JSON_stringify (qa_query a)) |}
  | FetchQueryRuleRegistryAlerts a =>
      {| rq_method := "POST";
         rq_path := ALERTS_AS_DATA_FIND_URL imports;
         rq_payload := JsonBody (JSON_stringify (qa_query a)) |}
  | UpdateAlertStatusByQuery a =>
      {| rq_method := "POST";
         rq_path := DETECTION_ENGINE_SIGNALS_STATUS_URL imports;
         rq_payload := JsonBody (JSON_stringify (JObj [
           ("conflicts", JStr "proceed");
           ("status", JStr (uq_status a));
           ("query", uq_query a) ])) |}
  | UpdateAlertStatusByIds a =>
      {| rq_method := "POST";
         rq_path := DETECTION_ENGINE_SIGNALS_STATUS_URL imports;
         rq_payload := JsonBody (JSON_stringify (JObj [
           ("status", JStr (ui_status a));
           ("signal_ids", JArr (map JStr (ui_signalIds a))) ])) |}
  | GetSignalIndex _ =>
      {| rq_method := "GET"; rq_path := DETECTION_ENGINE_INDEX_URL imports;
         rq_payload := NoBody |}
  | CheckSignalIndex _ =>
      {| rq_method := "GET"; rq_path := DETECTION_ENGINE_ALERTS_INDEX_URL imports;
         rq_payload := NoBody |}
  | GetUserPrivilege _ =>
      {| rq_method := "GET"; rq_path := DETECTION_ENGINE_PRIVILEGES_URL imports;
         rq_payload := NoBody |}
  | CreateSignalIndex _ =>
      {| rq_method := "POST"; rq_path := DETECTION_ENGINE_INDEX_URL imports;
         rq_payload := NoBody |}
  | CreateHostIsolation a =>
      {| rq_method := isolate_method endpoints;
         rq_path := ISOLATE_HOST_ROUTE endpoints;
         rq_payload := ActionBody {| endpoint_ids := [hi_endpointId a];
                                     comment := orDefault "" (hi_comment a);
                                     case_ids := hi_caseIds a;
                                     agent_type := hi_agentType a |} |}
  | CreateHostUnIsolation a =>
      {| rq_method := unisolate_method endpoints;
         rq_path := UNISOLATE_HOST_ROUTE endpoints;
         rq_payload := ActionBody {| endpoint_ids := [hi_endpointId a];
                                     comment := orDefault "" (hi_comment a);
                                     case_ids := hi_caseIds a;
                                     agent_type := hi_agentType a |} |}
  | GetCaseIdsFromAlertId a =>
      {| rq_method := "GET";
         rq_path := getCasesFromAlertsUrl imports (ci_alertId a);
         rq_payload := NoBody |}
  | GetHostMetadata a =>
      {| rq_method := "GET";
         rq_path := resolvePathVariables imports (HOST_METADATA_GET_ROUTE imports)
                      [("id", hm_agentId a)];
         rq_payload := NoBody |}
  end.

End Client.

(** Sample values of the imports, for evaluating the client. *)
Definition sampleImports : Imports :=
  {| DETECTION_ENGINE_QUERY_SIGNALS_URL := "/api/detection_engine/signals/search";
     DETECTION_ENGINE_SIGNALS_STATUS_URL := "/api/detection_engine/signals/status";
     DETECTION_ENGINE_INDEX_URL := "/api/detection_engine/index";
     DETECTION_ENGINE_PRIVILEGES_URL := "/api/detection_engine/privileges";
     ALERTS_AS_DATA_FIND_URL := "/internal/rac/alerts/find";
     DETECTION_ENGINE_ALERTS_INDEX_URL := "/internal/detection_engine/signal/index";
     HOST_METADATA_GET_ROUTE := "/api/endpoint/metadata/{id}";
     getCasesFromAlertsUrl := fun alertId => ("/api/cases/alerts/" ++ alertId)%string;
     resolvePathVariables := fun path vars =>
       fold_left (fun p kv => Js.replaceFirst ("{" ++ fst kv ++ "}")%string (snd kv) p)
                 vars path |}.

(** Sample endpoints of the isolation collaborator. *)
Definition sampleEndpoints : IsolationEndpoints :=
  {| isolate_method := "POST"; ISOLATE_HOST_ROUTE := "/api/endpoint/action/isolate";
     unisolate_method := "POST"; UNISOLATE_HOST_ROUTE := "/api/endpoint/action/unisolate" |}.

(** An environment in which every call resolves with an empty object. *)
Definition alwaysOk : Env := fun _ _ => Resolved (JObj []).
(** An environment in which every call is rejected. *)
Definition alwaysFails : Env := fun _ _ => Rejected (error "Internal Server Error").

End AlertsApi.

(** ** The request-scoped APM event client *)

Module ApmClient.

Definition DataTier := string.
Definition APMIndices := list (string * string).

Inductive ElasticsearchClient := esClientOf (user : string).
Inductive KibanaRequest := kibanaRequest (id : nat).
Inductive InspectableEsQueriesMap := inspectableEsQueriesMap.
Inductive Error := error (message : string).

(** The resolved core context, as far as this function reads it:
    [coreContext.elasticsearch.client.asCurrentUser]. *)
Record CoreContext := { asCurrentUser : ElasticsearchClient }.

(** The two ui-settings keys: [UI_SETTINGS.SEARCH_INCLUDE_FROZEN] and
    [searchExcludedDataTiers]. *)
Inductive SettingKey := SEARCH_INCLUDE_FROZEN | searchExcludedDataTiers.

(** The asynchronous lookups the function starts: the [context.core]
    promise, [getApmIndices()] and [coreContext.uiSettings.client.get(key)]. *)
Inductive Op :=
| ContextCore
| GetApmIndices
| UiSettingsGet (key : SettingKey).

Definition result (op : Op) : Type :=
  match op with
  | ContextCore => CoreContext
  | GetApmIndices => APMIndices
  | UiSettingsGet SEARCH_INCLUDE_FROZEN => bool
  | UiSettingsGet searchExcludedDataTiers => list DataTier
  end.

Definition Op_eqb (a b : Op) : bool :=
  match a, b with
  | ContextCore, ContextCore => true
  | GetApmIndices, GetApmIndices => true
  | UiSettingsGet SEARCH_INCLUDE_FROZEN, UiSettingsGet SEARCH_INCLUDE_FROZEN => true
  | UiSettingsGet searchExcludedDataTiers, UiSettingsGet searchExcludedDataTiers => true
  | _, _ => false
  end.

Inductive Outcome (R : Type) :=
| Resolved (r : R)
| Rejected (e : Error).
Arguments Resolved {R} r.
Arguments Rejected {R} e.

(** Asynchronous computations.  [Await op k] is a lookup that has been
    started and is pending, with the code that runs once it resolves;
    [All a b k] is [Promise.all] over two computations that are both under
    way, with the code that runs on the pair of their values;
    [Rejecting e rest] is a promise already rejected with [e] while [rest],
    whose outcome nobody waits for any more, is still under way. *)
Inductive Async (R : Type) : Type :=
| Return (r : R)
| Throw (e : Error)
| Await (op : Op) (k : result op -> Async R)
| All (A B : Type) (a : Async A) (b : Async B) (k : A * B -> Async R)
| Rejecting (e : Error) (A : Type) (rest : Async A).
Arguments Return {R} r.
Arguments Throw {R} e.
Arguments Await {R} op k.
Arguments All {R A B} a b k.
Arguments Rejecting {R} e {A} rest.

Fixpoint bind {A B} (p : Async A) (f : A -> Async B) : Async B :=
  match p with
  | Return r => f r
  | Throw e => Throw e
  | Await op k => Await op (fun v => bind (k v) f)
  | All a b k => All a b (fun xy => bind (k xy) f)
  | Rejecting e rest => Rejecting e rest
  end.

Notation "x <- p ;; q" := (bind p (fun x => q))
  (at level 61, p at next level, right associativity).
Notation "' pat <- p ;; q" := (bind p (fun x => match x with pat => q end))
  (at level 61, pat pattern, p at next level, right associativity).

(** The promise of a lookup that has just been started. *)
Definition start (op : Op) : Async (result op) := Await op Return.

(** The lookups a computation is waiting for. *)
Fixpoint pending {R} (p : Async R) : list Op :=
  match p with
  | Return _ | Throw _ => []
  | Await op _ => [op]
  | All a b _ => pending a ++ pending b
  | Rejecting _ rest => pending rest
  end.

(** A promise rejected with [e] beside a computation that nothing cancels:
    what is still under way goes on, what has come to its end is gone. *)
Definition rejecting {A R} (e : Error) (rest : Async A) : Async R :=
  match pending rest with
  | [] => Throw e
  | _ :: _ => Rejecting e rest
  end.

(** [Promise.all]: rejected as soon as one member is, resolved with the
    pair once both members are, pending otherwise.  Rejecting cancels
    nothing: the other member keeps running. *)
Definition join {A B R} (a : Async A) (b : Async B) (k : A * B -> Async R) : Async R :=
  match a, b with
  | Throw e, _ => rejecting e b
  | Rejecting e ra, _ => rejecting e (All ra b Return)
  | _, Throw e => rejecting e a
  | _, Rejecting e rb => rejecting e (All a rb Return)
  | Return x, Return y => k (x, y)
  | _, _ => All a b k
  end.

Definition Promise_all {A B} (a : Async A) (b : Async B) : Async (A * B) :=
  join a b Return.

(** How the promise of a computation has settled, if it has. *)
Definition outcome {R} (p : Async R) : option (Outcome R) :=
  match p with
  | Return r => Some (Resolved r)
  | Throw e | Rejecting e _ => Some (Rejected e)
  | Await _ _ | All _ _ _ => None
  end.

(** The environment settles every lookup one way or the other. *)
Definition Env := forall op : Op, Outcome (result op).

(** The lookup [op] settles: the code waiting for it runs up to its next
    pending lookups.  Behind a promise that is already rejected the code
    still under way runs on in the same way. *)
Fixpoint settle (env : Env) (op : Op) {R} (p : Async R) : Async R :=
  match p with
  | Return r => Return r
  | Throw e => Throw e
  | Await op' k =>
      if Op_eqb op op'
      then match env op' with
           | Resolved v => k v
           | Rejected e => Throw e
           end
      else Await op' k
  | All a b k => join (settle env op a) (settle env op b) k
  | Rejecting e rest => rejecting e (settle env op rest)
  end.

(** A schedule is the order in which the event loop settles lookups; an
    entry that names no pending lookup is skipped.  The run gives the
    computation reached and the lookups that completed, in order. *)
Fixpoint run (env : Env) (schedule : list Op) {R} (p : Async R) : Async R * list Op :=
  match schedule with
  | [] => (p, [])
  | op :: rest =>
      if existsb (Op_eqb op) (pending p)
      then let (q, done) := run env rest (settle env op p) in (q, op :: done)
      else run env rest p
  end.

Record UiSettings := { us_includeFrozen : bool; us_excludedDataTiers : list DataTier }.

Record APMEventClientOptions := {
  includeFrozen : bool;
  excludedDataTiers : list DataTier;
  opt_inspectableEsQueriesMap : InspectableEsQueriesMap
}.

Record APMEventClientConfig := {
  esClient : ElasticsearchClient;
  debug : bool;
  request : KibanaRequest;
  indices : APMIndices;
  options : APMEventClientOptions
}.

(** The client, known by the configuration it was constructed with. *)
Inductive APMEventClient := new_APMEventClient (config : APMEventClientConfig).


(** The part of [MinimalAPMRouteHandlerResources] the function picks that
    is plain data; [context] and [getApmIndices] are the lookups
    [ContextCore] and [GetApmIndices]. *)
Record Resources := {
  params_query_inspect : bool;
  res_request : KibanaRequest
}.

(** Modelled from the spec: [withApmSpan] (utils/with_apm_span) is not among
    the sources.  The specification describes the assembly as the lookups
    and the construction alone, so the span wrapper hands back the promise
    of the callback it runs. *)
Definition withApmSpan {R} (name : string) (callback : Async R) : Async R := callback.

Definition getApmEventClient (r : Resources) : Async APMEventClient :=
  withApmSpan "get_apm_event_client" (
    coreContext <- start ContextCore ;;
    ' (indices, uiSettings) <- Promise_all
        (start GetApmIndices)
        (withApmSpan "get_ui_settings" (
           includeFrozen <- start (UiSettingsGet SEARCH_INCLUDE_FROZEN) ;;
           excludedDataTiers <- start (UiSettingsGet searchExcludedDataTiers) ;;
           Return {| us_includeFrozen := includeFrozen;
                     us_excludedDataTiers := excludedDataTiers |})) ;;
    Return (new_APMEventClient {|
      esClient := asCurrentUser coreContext;
      debug := params_query_inspect r;
      request := res_request r;
      indices := indices;
      options := {|
        includeFrozen := us_includeFrozen uiSettings;
        excludedDataTiers := us_excludedDataTiers uiSettings;
        opt_inspectableEsQueriesMap := inspectableEsQueriesMap
      |}
    |})).

(** *** The stages of the assembly *)

(** The inner asynchronous function, and what is left of it once the
    include-frozen flag is known. *)
Definition uiSettingsTask : Async UiSettings :=
  includeFrozen <- start (UiSettingsGet SEARCH_INCLUDE_FROZEN) ;;
  excludedDataTiers <- start (UiSettingsGet searchExcludedDataTiers) ;;
  Return {| us_includeFrozen := includeFrozen;
            us_excludedDataTiers := excludedDataTiers |}.

Definition afterFrozen (f : bool) : Async UiSettings :=
  excludedDataTiers <- start (UiSettingsGet searchExcludedDataTiers) ;;
  Return {| us_includeFrozen := f; us_excludedDataTiers := excludedDataTiers |}.

(** The client the function constructs from the four values. *)
Definition clientOf (r : Resources) (ctx : CoreContext) (ix : APMIndices)
  (f : bool) (t : list DataTier) : APMEventClient :=
  new_APMEventClient {|
    esClient := asCurrentUser ctx;
    debug := params_query_inspect r;
    request := res_request r;
    indices := ix;
    options := {| includeFrozen := f; excludedDataTiers := t;
                  opt_inspectableEsQueriesMap := inspectableEsQueriesMap |}
  |}.

Definition assemble (r : Resources) (ctx : CoreContext) (p : APMIndices * UiSettings)
  : Async APMEventClient :=
  match p with
  | (ix, ui) => Return (clientOf r ctx ix (us_includeFrozen ui) (us_excludedDataTiers ui))
  end.

(** How far a call has come: which lookups have resolved, with what, and
    whether the call has been rejected while a lookup was still under way. *)
Inductive Stage :=
| Started
| CoreDone (ctx : CoreContext)
| IndicesDone (ctx : CoreContext) (ix : APMIndices)
| FrozenDone (ctx : CoreContext) (f : bool)
| IndicesFrozenDone (ctx : CoreContext) (ix : APMIndices) (f : bool)
| SettingsDone (ctx : CoreContext) (f : bool) (t : list DataTier)
| Built (ctx : CoreContext) (ix : APMIndices) (f : bool) (t : list DataTier)
| IndicesFailed (e : Error)
| IndicesFailedTiers (e : Error) (f : bool)
| SettingsFailed (e : Error)
| Failed (e : Error).

(** The computation a stage stands for. *)
Definition stateOf (r : Resources) (s : Stage) : Async APMEventClient :=
  match s with
  | Started => getApmEventClient r
  | CoreDone ctx =>
      bind (Promise_all (start GetApmIndices) uiSettingsTask) (assemble r ctx)
  | IndicesDone ctx ix =>
      bind (Promise_all (Return ix) uiSettingsTask) (assemble r ctx)
  | FrozenDone ctx f =>
      bind (Promise_all (start GetApmIndices) (afterFrozen f)) (assemble r ctx)
  | IndicesFrozenDone ctx ix f =>
      bind (Promise_all (Return ix) (afterFrozen f)) (assemble r ctx)
  | SettingsDone ctx f t =>
      bind (Promise_all (start GetApmIndices)
              (Return {| us_includeFrozen := f; us_excludedDataTiers := t |}))
           (assemble r ctx)
  | Built ctx ix f t => Return (clientOf r ctx ix f t)
  | IndicesFailed e => Rejecting e uiSettingsTask
  | IndicesFailedTiers e f => Rejecting e (afterFrozen f)
  | SettingsFailed e => Rejecting e (start GetApmIndices)
  | Failed e => Throw e
  end.

(** The stage reached when [op] settles. *)
Definition orElse {A} (o : Outcome A) (k : A -> Stage) (h : Error -> Stage) : Stage :=
  match o with Resolved v => k v | Rejected e => h e end.

Definition advance (env : Env) (s : Stage) (op : Op) : Stage :=
  match s, op with
  | Started, ContextCore => orElse (env ContextCore) CoreDone Failed
  | CoreDone ctx, GetApmIndices =>
      orElse (env GetApmIndices) (IndicesDone ctx) IndicesFailed
  | CoreDone ctx, UiSettingsGet SEARCH_INCLUDE_FROZEN =>
      orElse (env (UiSettingsGet SEARCH_INCLUDE_FROZEN)) (FrozenDone ctx) SettingsFailed
  | IndicesDone ctx ix, UiSettingsGet SEARCH_INCLUDE_FROZEN =>
      orElse (env (UiSettingsGet SEARCH_INCLUDE_FROZEN)) (IndicesFrozenDone ctx ix) Failed
  | FrozenDone ctx f, GetApmIndices =>
      orElse (env GetApmIndices) (fun ix => IndicesFrozenDone ctx ix f)
             (fun e => IndicesFailedTiers e f)
  | FrozenDone ctx f, UiSettingsGet searchExcludedDataTiers =>
      orElse (env (UiSettingsGet searchExcludedDataTiers)) (SettingsDone ctx f)
             SettingsFailed
  | IndicesFrozenDone ctx ix f, UiSettingsGet searchExcludedDataTiers =>
      orElse (env (UiSettingsGet searchExcludedDataTiers)) (Built ctx ix f) Failed
  | SettingsDone ctx f t, GetApmIndices =>
      orElse (env GetApmIndices) (fun ix => Built ctx ix f t) Failed
  | IndicesFailed e, UiSettingsGet SEARCH_INCLUDE_FROZEN =>
      orElse (env (UiSettingsGet SEARCH_INCLUDE_FROZEN)) (IndicesFailedTiers e)
             (fun _ => Failed e)
  | IndicesFailedTiers e f, UiSettingsGet searchExcludedDataTiers =>
      orElse (env (UiSettingsGet searchExcludedDataTiers)) (fun _ => Failed e)
             (fun _ => Failed e)
  | SettingsFailed e, GetApmIndices =>
      orElse (env GetApmIndices) (fun _ => Failed e) (fun _ => Failed e)
  | _, _ => s
  end.

(** The lookups a stage waits for, and those that have resolved behind it. *)
Definition waiting (s : Stage) : list Op :=
  match s with
  | Started => [ContextCore]
  | CoreDone _ => [GetApmIndices; UiSettingsGet SEARCH_INCLUDE_FROZEN]
  | IndicesDone _ _ => [UiSettingsGet SEARCH_INCLUDE_FROZEN]
  | FrozenDone _ _ => [GetApmIndices; UiSettingsGet searchExcludedDataTiers]
  | IndicesFrozenDone _ _ _ => [UiSettingsGet searchExcludedDataTiers]
  | SettingsDone _ _ _ => [GetApmIndices]
  | IndicesFailed _ => [UiSettingsGet SEARCH_INCLUDE_FROZEN]
  | IndicesFailedTiers _ _ => [UiSettingsGet searchExcludedDataTiers]
  | SettingsFailed _ => [GetApmIndices]
  | Built _ _ _ _ | Failed _ => []
  end.

Definition resolvedIn (s : Stage) : list Op :=
  match s with
  | Started | Failed _ => []
  | CoreDone _ | IndicesFailed _ | SettingsFailed _ => [ContextCore]
  | IndicesDone _ _ => [ContextCore; GetApmIndices]
  | FrozenDone _ _ | IndicesFailedTiers _ _ =>
      [ContextCore; UiSettingsGet SEARCH_INCLUDE_FROZEN]
  | IndicesFrozenDone _ _ _ =>
      [ContextCore; GetApmIndices; UiSettingsGet SEARCH_INCLUDE_FROZEN]
  | SettingsDone _ _ _ =>
      [ContextCore; UiSettingsGet SEARCH_INCLUDE_FROZEN; UiSettingsGet searchExcludedDataTiers]
  | Built _ _ _ _ =>
      [ContextCore; GetApmIndices; UiSettingsGet SEARCH_INCLUDE_FROZEN;
       UiSettingsGet searchExcludedDataTiers]
  end.

(** The error a stage has rejected the call with, if it has. *)
Definition rejection (s : Stage) : option Error :=
  match s with
  | IndicesFailed e | IndicesFailedTiers e _ | SettingsFailed e | Failed e => Some e
  | _ => None
  end.

Definition failed (s : Stage) : bool :=
  match rejection s with Some _ => true | None => false end.

(** The stages from which, the include-frozen flag being rejected, the
    excluded data tiers are never asked for. *)
Definition beforeFrozen (s : Stage) : bool :=
  match s with
  | Started | CoreDone _ | IndicesDone _ _ | IndicesFailed _ | SettingsFailed _
  | Failed _ => true
  | _ => false
  end.

(** The values a stage holds are the ones the environment resolved. *)
Definition agrees (env : Env) (s : Stage) : Prop :=
  match s with
  | Started | Failed _ | IndicesFailed _ | IndicesFailedTiers _ _ | SettingsFailed _ =>
      True
  | CoreDone ctx => env ContextCore = Resolved ctx
  | IndicesDone ctx ix =>
      env ContextCore = Resolved ctx /\ env GetApmIndices = Resolved ix
  | FrozenDone ctx f =>
      env ContextCore = Resolved ctx
      /\ env (UiSettingsGet SEARCH_INCLUDE_FROZEN) = Resolved f
  | IndicesFrozenDone ctx ix f =>
      env ContextCore = Resolved ctx /\ env GetApmIndices = Resolved ix
      /\ env (UiSettingsGet SEARCH_INCLUDE_FROZEN) = Resolved f
  | SettingsDone ctx f t =>
      env ContextCore = Resolved ctx
      /\ env (UiSettingsGet SEARCH_INCLUDE_FROZEN) = Resolved f
      /\ env (UiSettingsGet searchExcludedDataTiers) = Resolved t
  | Built ctx ix f t =>
      env ContextCore = Resolved ctx /\ env GetApmIndices = Resolved ix
      /\ env (UiSettingsGet SEARCH_INCLUDE_FROZEN) = Resolved f
      /\ env (UiSettingsGet searchExcludedDataTiers) = Resolved t
  end.

(** The run of a schedule, stage by stage. *)
Fixpoint runStages (env : Env) (schedule : list Op) (s : Stage) : Stage * list Op :=
  match schedule with
  | [] => (s, [])
  | op :: rest =>
      if existsb (Op_eqb op) (waiting s)
      then let (s', done) := runStages env rest (advance env s op) in (s', op :: done)
      else runStages env rest s
  end.

(** The lookups a stage may still see settle. *)
Definition unsettled (s : Stage) : list Op :=
  match s with
  | Started =>
      [ContextCore; GetApmIndices; UiSettingsGet SEARCH_INCLUDE_FROZEN;
       UiSettingsGet searchExcludedDataTiers]
  | CoreDone _ =>
      [GetApmIndices; UiSettingsGet SEARCH_INCLUDE_FROZEN;
       UiSettingsGet searchExcludedDataTiers]
  | IndicesDone _ _ | IndicesFailed _ =>
      [UiSettingsGet SEARCH_INCLUDE_FROZEN; UiSettingsGet searchExcludedDataTiers]
  | FrozenDone _ _ => [GetApmIndices; UiSettingsGet searchExcludedDataTiers]
  | IndicesFrozenDone _ _ _ | IndicesFailedTiers _ _ =>
      [UiSettingsGet searchExcludedDataTiers]
  | SettingsDone _ _ _ | SettingsFailed _ => [GetApmIndices]
  | Built _ _ _ _ | Failed _ => []
  end.


(** *** What the specification says, in its own words *)


(** Every lookup resolves in [env]. *)
Definition allResolve (env : Env) : Prop :=
  forall op, exists v, env op = Resolved v.

(** An environment built from the four answers. *)
Definition envOf (core : Outcome CoreContext) (ix : Outcome APMIndices)
  (frozen : Outcome bool) (tiers : Outcome (list DataTier)) : Env :=
  fun op =>
    match op with
    | ContextCore => core
    | GetApmIndices => ix
    | UiSettingsGet SEARCH_INCLUDE_FROZEN => frozen
    | UiSettingsGet searchExcludedDataTiers => tiers
    end.

Definition sampleEnv : Env :=
  envOf (Resolved {| asCurrentUser := esClientOf "elastic" |})
        (Resolved [("transaction", "traces-apm*")])
        (Resolved true)
        (Resolved ["data_frozen"]).

Definition sampleResources : Resources :=
  {| params_query_inspect := false; res_request := kibanaRequest 1 |}.

End ApmClient.

(** ** The threat-match input of the rule creation form *)

Module ThreatMatch.

(** Functions handed around as props are known by their identity. *)
Inductive Callback := callback (id : nat).

Definition Callback_eqb (a b : Callback) : bool :=
  match a, b with callback i, callback j => Nat.eqb i j end.

Record ThreatMapEntry := { field : string; type : string; value : string }.
Record ThreatMapEntries := { entries : list ThreatMapEntry }.

Inductive DataViewBase := dataView (title : string).

(** The form hook of the threat mapping field, as far as the component and
    the validity helper read it. *)
Record FieldHook := {
  fh_value : list ThreatMapEntries;
  fh_setValue : Callback;
  fh_label : option string;
  fh_labelAppend : option string;
  fh_helpText : option string;
  fh_errors : list string;
  fh_isChangingValue : bool
}.

Record FieldValidity := { isInvalid : bool; errorMessage : option string }.

Record ThreatMatchInputProps := {
  threatMapping : FieldHook;
  threatIndexPatterns : DataViewBase;
  indexPatterns : DataViewBase;
  threatIndexPatternsLoading : bool;
  threatIndexModified : bool;
  handleResetThreatIndices : Callback;
  onValidityChange : option Callback
}.

(** What the component does to the outside: it calls the validity callback
    of its parent, or the setter of the threat mapping field. *)
Inductive Event :=
| OnValidityChange (cb : Callback) (isValid : bool)
| SetValue (setter : Callback) (entryItems : list ThreatMapEntries).

(** The dependency array of the effect:
    [isThreatIndexPatternValid, isThreatMappingInvalid, onValidityChange]. *)
Definition Deps := (bool * bool * option Callback)%type.

Definition option_eqb {A} (eqb : A -> A -> bool) (a b : option A) : bool :=
  match a, b with
  | Some x, Some y => eqb x y
  | None, None => true
  | _, _ => false
  end.

(** React compares dependencies one by one with [Object.is]. *)
Definition Deps_eqb (a b : Deps) : bool :=
  match a, b with
  | (v1, i1, c1), (v2, i2, c2) =>
      Bool.eqb v1 v2 && Bool.eqb i1 i2 && option_eqb Callback_eqb c1 c2
  end.

(** What React keeps for a mounted component between renders: the state
    cell of [useState], the dependencies of the last effect, and the
    [setValue] the memoised [handleBuilderOnChange] closes over. *)
Record Hooks := {
  isThreatIndexPatternValid : bool;
  effectDeps : Deps;
  builderSetValue : Callback
}.

(** The part of the rendered tree that carries behaviour. *)
Record View := {
  resetButton : option Callback;
  queryBar_indexPattern : DataViewBase;
  queryBar_isLoading : bool;
  formRow_error : option string;
  formRow_isInvalid : bool;
  builder_listItems : list ThreatMapEntries;
  builder_indexPatterns : DataViewBase;
  builder_threatIndexPatterns : DataViewBase;
  builder_onChange : Callback
}.

Record Instance := { props : ThreatMatchInputProps; hooks : Hooks; view : View }.

(** What happens to a mounted component: the parent renders it again, the
    query bar reports its validity through [setIsThreatIndexPatternValid],
    or the list builder reports a change through [handleBuilderOnChange]. *)
Inductive Input :=
| Rerender (p : ThreatMatchInputProps)
| QueryBarValidity (isValid : bool)
| BuilderChange (entryItems : list ThreatMapEntries).

Section Component.

(** [getFieldValidityAndErrorMessage] of the form library. *)
Variable getFieldValidityAndErrorMessage : FieldHook -> FieldValidity.

(** One render of [ThreatMatchInputComponent] and the commit that follows:
    [valid] is the current value of the state cell, [prev] what the hooks
    kept from the render before ([None] on the first render).  The effect
    reads the values of this render. *)
Definition render (p : ThreatMatchInputProps) (valid : bool) (prev : option Hooks)
  : Instance * list Event :=
  let setValue := fh_setValue (threatMapping p) in
  let threatItems := fh_value (threatMapping p) in
  let validity := getFieldValidityAndErrorMessage (threatMapping p) in
  let isThreatMappingInvalid := isInvalid validity in
  let deps : Deps := (valid, isThreatMappingInvalid, onValidityChange p) in
  let runsEffect :=
    match prev with
    | None => true
    | Some h => negb (Deps_eqb (effectDeps h) deps)
    end in
  let effect :=
    if runsEffect
    then match onValidityChange p with
         | Some cb => [OnValidityChange cb (negb isThreatMappingInvalid && valid)]
         | None => []
         end
    else [] in
  let handlerSetValue :=
    match prev with
    | None => setValue
    | Some h => if Callback_eqb (builderSetValue h) setValue
                then builderSetValue h else setValue
    end in
  ({| props := p;
      hooks := {| isThreatIndexPatternValid := valid;
                  effectDeps := if runsEffect then deps
                                else match prev with Some h => effectDeps h | None => deps end;
                  builderSetValue := handlerSetValue |};
      view := {| resetButton := if threatIndexModified p
                                then Some (handleResetThreatIndices p) else None;
                 queryBar_indexPattern := threatIndexPatterns p;
                 queryBar_isLoading := threatIndexPatternsLoading p;
                 formRow_error := errorMessage validity;
                 formRow_isInvalid := isThreatMappingInvalid;
                 builder_listItems := threatItems;
                 builder_indexPatterns := indexPatterns p;
                 builder_threatIndexPatterns := threatIndexPatterns p;
                 builder_onChange := handlerSetValue |} |},
   effect).

(** The first render: [useState(false)].  The export wraps the component
    in [React.memo], which skips a render whose props are the same values;
    such a render would change no dependency and run no effect. *)
Definition mount (p : ThreatMatchInputProps) : Instance * list Event :=
  render p false None.

Definition step (inst : Instance) (i : Input) : Instance * list Event :=
  match i with
  | Rerender p => render p (isThreatIndexPatternValid (hooks inst)) (Some (hooks inst))
  | QueryBarValidity b =>
      if Bool.eqb b (isThreatIndexPatternValid (hooks inst))
      then (inst, [])
      else render (props inst) b (Some (hooks inst))
  | BuilderChange entryItems =>
      (inst, [SetValue (builder_onChange (view inst)) entryItems])
  end.

Fixpoint steps (inst : Instance) (inputs : list Input) : Instance * list Event :=
  match inputs with
  | [] => (inst, [])
  | i :: rest =>
      let (inst1, evs1) := step inst i in
      let (inst2, evs2) := steps inst1 rest in
      (inst2, evs1 ++ evs2)
  end.

(** The life of a component: mounted with [p], then fed [inputs]. *)
Definition life (p : ThreatMatchInputProps) (inputs : list Input) : Instance * list Event :=
  let (inst0, evs0) := mount p in
  let (inst, evs) := steps inst0 inputs in
  (inst, evs0 ++ evs).

(** *** What the specification says, in its own words *)

(** The combined validity: the mapping field is not invalid and the
    threat index pattern query is valid. *)
Definition combinedValidity (inst : Instance) : bool :=
  negb (isInvalid (getFieldValidityAndErrorMessage (threatMapping (props inst))))
  && isThreatIndexPatternValid (hooks inst).

(** The calls of the validity callback in a trace, in order. *)
Definition validityReports (evs : list Event) : list (Callback * bool) :=
  flat_map (fun e => match e with
                     | OnValidityChange cb b => [(cb, b)]
                     | SetValue _ _ => []
                     end) evs.

(** The latest call of the validity callback in a trace. *)
Definition lastReport (evs : list Event) : option (Callback * bool) :=
  List.last (map Some (validityReports evs)) None.

(** What the hooks keep agrees with the props and the state they were
    computed from: true of every instance a render has produced. *)
Definition committed (inst : Instance) : Prop :=
  effectDeps (hooks inst)
  = (isThreatIndexPatternValid (hooks inst),
     isInvalid (getFieldValidityAndErrorMessage (threatMapping (props inst))),
     onValidityChange (props inst))
  /\ builder_onChange (view inst) = fh_setValue (threatMapping (props inst))
  /\ builderSetValue (hooks inst) = fh_setValue (threatMapping (props inst)).

(** The parent has been told the combined validity of [inst]: the latest
    call of the callback it provides carries it. *)
Definition informed (inst : Instance) (evs : list Event) : Prop :=
  forall cb, onValidityChange (props inst) = Some cb ->
             lastReport evs = Some (cb, combinedValidity inst).

End Component.

(** The validity helper as the form library defines it: a field is invalid
    when it has errors and its value is not being changed. *)
Definition libraryValidity (f : FieldHook) : FieldValidity :=
  {| isInvalid := negb (fh_isChangingValue f) && Nat.ltb 0 (List.length (fh_errors f));
     errorMessage := if negb (fh_isChangingValue f) then hd_error (fh_errors f) else None |}.

Definition sampleField (errors : list string) : FieldHook :=
  {| fh_value := []; fh_setValue := callback 7; fh_label := Some "Indicator mapping";
     fh_labelAppend := None; fh_helpText := None; fh_errors := errors;
     fh_isChangingValue := false |}.

Definition sampleProps (errors : list string) (cb : option Callback) : ThreatMatchInputProps :=
  {| threatMapping := sampleField errors;
     threatIndexPatterns := dataView "logs-ti_*";
     indexPatterns := dataView "logs-*";
     threatIndexPatternsLoading := false;
     threatIndexModified := false;
     handleResetThreatIndices := callback 3;
     onValidityChange := cb |}.

Definition sampleEntries : list ThreatMapEntries :=
  [{| entries := [{| field := "host.name"; type := "mapping"; value := "threat.indicator.host" |}] |}].

(** *** Reading inputs and traces *)

(** The entry items the list builder reported, in order. *)
Definition reportedEntries (inputs : list Input) : list (list ThreatMapEntries) :=
  flat_map (fun i => match i with BuilderChange items => [items] | _ => [] end) inputs.

(** The entry items [setValue] was called with, in order. *)
Definition setValueCalls (evs : list Event) : list (list ThreatMapEntries) :=
  flat_map (fun e => match e with SetValue _ items => [items] | _ => [] end) evs.

(** The validities the query bar reported, in order. *)
Definition queryBarReports (inputs : list Input) : list bool :=
  flat_map (fun i => match i with QueryBarValidity b => [b] | _ => [] end) inputs.

(** The props of the renders the parent asked for, in order. *)
Definition rerenders (inputs : list Input) : list ThreatMatchInputProps :=
  flat_map (fun i => match i with Rerender p => [p] | _ => [] end) inputs.

(** The inputs that can make the component render. *)
Definition mayRender (i : Input) : bool :=
  match i with BuilderChange _ => false | _ => true end.

End ThreatMatch.

(** * Properties *)

(** ** The lifecycle-policy form schema *)

Module IlmFacts.
Import Ilm.

(** The slice the source takes of the downsampling phases is the suffix
    the specification describes: from the phase itself, or from the phase
    after it. *)
Lemma getDownsampleFieldsToValidateOnChange_spec (p : PhaseWithDownsample) (include : bool) :
  getDownsampleFieldsToValidateOnChange p include
  = map intervalSizePath (if include then downsampleFrom p else downsampleAfter p).
Proof. destruct p, include; reflexivity. Qed.

Section Facts.

Variable defaultIndexPriority : PhaseWithPriority -> Value.
Variable CLOUD_DEFAULT_REPO : string.
Variable ROLLOVER_FORM_PATHS : list (string * string).

Local Notation "'schema'" :=
  (getSchema defaultIndexPriority CLOUD_DEFAULT_REPO ROLLOVER_FORM_PATHS).

(** C2: whatever [isCloudEnabled] is, the [min_age] field of every timed
    phase lists exactly the validators required, non-negative number,
    integer and greater-than-previous-phase for that phase, in this order;
    and the downsample [fixedIntervalSize] field of every downsampling phase
    lists exactly required, greater than zero, integer and
    multiple-of-previous-interval for that phase, in this order. *)
Theorem validator_lists (isCloudEnabled : bool) :
  (forall p : PhaseWithTiming,
     validatorsAt (schema isCloudEnabled) (minAgePath p)
     = Some [ emptyField (I18nTexts "editPolicy.errors.numberRequired");
              ifExistsNumberNonNegative;
              isInteger (I18nTexts "editPolicy.errors.integerRequired");
              minAgeGreaterThanPreviousPhase p ])
  /\
  (forall p : PhaseWithDownsample,
     validatorsAt (schema isCloudEnabled) (intervalSizePath p)
     = Some [ emptyField (I18nTexts "editPolicy.errors.numberRequired");
              ifExistsNumberGreaterThanZero;
              isInteger (I18nTexts "editPolicy.errors.integerRequired");
              downsampleIntervalMultipleOfPreviousOne p ]).
Proof.
  split; intros p; destruct p; reflexivity.
Qed.

(** C6: for every phase with downsampling, a change of the downsample
    [fixedIntervalSize] or [fixedIntervalUnits] field re-validates exactly
    the [_meta] downsample [fixedIntervalSize] paths of the phase itself and
    of every later downsampling phase, in lifecycle order, while a change
    of the downsample [enabled] field re-validates only those of the
    strictly later phases. *)
Theorem downsample_fields_to_validate (isCloudEnabled : bool) (p : PhaseWithDownsample) :
  revalidates (schema isCloudEnabled) (intervalSizePath p)
  = Some (map intervalSizePath (downsampleFrom p))
  /\ revalidates (schema isCloudEnabled) (intervalUnitsPath p)
     = Some (map intervalSizePath (downsampleFrom p))
  /\ revalidates (schema isCloudEnabled) (downsampleEnabledPath p)
     = Some (map intervalSizePath (downsampleAfter p)).
Proof.
  destruct p; repeat split; reflexivity.
Qed.

(** Every path a downsample field re-validates is a field of the schema,
    and one that carries the multiple-of-previous-interval validator. *)
Lemma downsample_paths_resolve (isCloudEnabled : bool) (p q : PhaseWithDownsample) :
  In q (downsampleFrom p) ->
  exists vs, validatorsAt (schema isCloudEnabled) (intervalSizePath q) = Some vs
             /\ In (downsampleIntervalMultipleOfPreviousOne q) vs.
Proof.
  intros _. destruct q; eexists; (split; [reflexivity | simpl; tauto]).
Qed.

(** C9: for every timed phase the [min_age] field re-validates nothing on
    change (its list is the empty array), and the [minAgeToMilliSeconds]
    field of the phase under [_meta] re-validates exactly the [min_age]
    paths of the phase itself and of every later timed phase. *)
Theorem min_age_fields_to_validate (isCloudEnabled : bool) (p : PhaseWithTiming) :
  revalidates (schema isCloudEnabled) (minAgePath p) = Some []
  /\ revalidates (schema isCloudEnabled) (minAgeToMilliSecondsPath p)
     = Some (map minAgePath (timedFrom p)).
Proof.
  destruct p; split; reflexivity.
Qed.

(** What [getMinAgeField] builds has the empty list whatever its arguments. *)
Lemma getMinAgeField_revalidates_nothing (p : PhaseWithTiming) (d : option Value) :
  fieldsToValidateOnChange (getMinAgeField p d) = Some [].
Proof. reflexivity. Qed.

(** Every path a [minAgeToMilliSeconds] field re-validates is a [min_age]
    field of the schema carrying the greater-than-previous-phase validator. *)
Lemma min_age_paths_resolve (isCloudEnabled : bool) (q : PhaseWithTiming) :
  exists vs, validatorsAt (schema isCloudEnabled) (minAgePath q) = Some vs
             /\ In (minAgeGreaterThanPreviousPhase q) vs.
Proof.
  destruct q; eexists; (split; [reflexivity | simpl; tauto]).
Qed.

(** Descending one key into a group whose members are known. *)
Ltac descend k :=
  cbn [getField];
  repeat match goal with
         | |- context [String.eqb ?a k] =>
             destruct (String.eqb_spec a k); [subst k; try reflexivity | ]
         end;
  try reflexivity.

(** C5: the schemas of the two values of [isCloudEnabled] have the same
    descriptor at every path other than [_meta.searchableSnapshot.repository];
    there, both have a descriptor that sets nothing but [defaultValue],
    which is the cloud default repository when [isCloudEnabled] is true and
    the empty string when it is false. *)
Theorem cloud_changes_only_repository_default (path : list string) :
  (path <> repositoryPath ->
   getField (schema true) path = getField (schema false) path)
  /\ (forall b : bool,
        getField (schema b) repositoryPath = Some (repositoryField CLOUD_DEFAULT_REPO b)
        /\ defaultValue (repositoryField CLOUD_DEFAULT_REPO b)
           = Some (VStr (if b then CLOUD_DEFAULT_REPO else ""))).
Proof.
  split; [ | intros b; split; reflexivity ].
  intros Hne. unfold getSchema.
  destruct path as [ | k1 [ | k2 [ | k3 [ | k4 rest ] ] ] ]; try reflexivity.
  (* only a path of three keys can tell the two schemas apart *)
  descend k1. descend k2. descend k3.
  exfalso. apply Hne. reflexivity.
Qed.

End Facts.

Lemma cloud_changes_only_repository_default_witness :
  ["phases"; "delete"; "min_age"] <> repositoryPath
  /\ getField (sampleSchema true) ["phases"; "delete"; "min_age"]
     = getField (sampleSchema false) ["phases"; "delete"; "min_age"].
Proof.
  split; [ discriminate | ].
  apply (proj1 (cloud_changes_only_repository_default
                  sampleIndexPriority sampleCloudRepo sampleRolloverPaths
                  ["phases"; "delete"; "min_age"])).
  discriminate.
Defined.

(** With a non-empty cloud repository the two schemas do differ. *)
Lemma sample_schemas_differ :
  getField (sampleSchema true) repositoryPath <> getField (sampleSchema false) repositoryPath.
Proof. discriminate. Qed.

(** The schema on the sample constants, at the two ends of the lifecycle. *)
Example hot_enabled_revalidates :
  revalidates (sampleSchema false) "_meta.hot.downsample.enabled"
  = Some ["_meta.warm.downsample.fixedIntervalSize";
          "_meta.cold.downsample.fixedIntervalSize"].
Proof. reflexivity. Qed.

Example cold_enabled_revalidates :
  revalidates (sampleSchema false) "_meta.cold.downsample.enabled" = Some [].
Proof. reflexivity. Qed.

Example delete_min_age_default :
  option_map defaultValue (fieldAt (sampleSchema true) "phases.delete.min_age")
  = Some (Some (VStr "365")).
Proof. reflexivity. Qed.

End IlmFacts.

(** ** The alerts REST client *)

Module AlertsApiFacts.
Import AlertsApi.

(** A promise made of one call settles as the call does. *)
Lemma run_promiseOf (env : Env) (c : Call) :
  run env (promiseOf c) = ([c], env [] c).
Proof.
  unfold run, promiseOf. cbn. destruct (env [] c); reflexivity.
Qed.

Lemma run_http_fetch (env : Env) (path : string) (options : FetchOptions) :
  run env (http_fetch path options)
  = ([HttpFetch path options], env [] (HttpFetch path options)).
Proof. apply run_promiseOf. Qed.

(** C3: every exported function makes exactly one HTTP call, fixed by its
    inputs alone - the method, the path and the body of the endpoint the
    specification lists for it - and settles as that call does: resolved
    with the parsed response, or rejected with the same error.  One call is
    made whether it succeeds or fails, so nothing is retried, batched or
    delayed. *)
Theorem every_export_makes_one_call (imports : Imports) (endpoints : IsolationEndpoints)
  (f : Exported) :
  exists c : Call,
    httpRequestOf endpoints c = endpointOf imports endpoints f
    /\ forall env : Env, run env (invoke imports f) = ([c], env [] c).
Proof.
  destruct f; eexists; (split; [ | intros env; apply run_promiseOf ]); reflexivity.
Qed.

(** The request behind an isolation, on the sample endpoints. *)
Example createHostIsolation_request :
  exists c,
    run alwaysFails
      (createHostIsolation {| hi_endpointId := "agent-1"; hi_comment := None;
                              hi_caseIds := Some ["case-1"]; hi_agentType := "endpoint" |})
    = ([c], Rejected (error "Internal Server Error"))
    /\ httpRequestOf sampleEndpoints c
       = {| rq_method := "POST"; rq_path := "/api/endpoint/action/isolate";
            rq_payload := ActionBody {| endpoint_ids := ["agent-1"]; comment := "";
                                        case_ids := Some ["case-1"];
                                        agent_type := "endpoint" |} |}.
Proof. eexists. split; reflexivity. Qed.

(** What the two isolation functions hand to their helper. *)
Lemma createHostIsolation_call (imports : Imports) (env : Env) (a : HostIsolationProps) :
  let params := {| endpoint_ids := [hi_endpointId a];
                   comment := orDefault "" (hi_comment a);
                   case_ids := hi_caseIds a;
                   agent_type := hi_agentType a |} in
  run env (createHostIsolation a) = ([IsolateHost params], env [] (IsolateHost params))
  /\ run env (createHostUnIsolation a)
     = ([UnIsolateHost params], env [] (UnIsolateHost params)).
Proof. split; apply run_promiseOf. Qed.

(** A rejected fetch is the rejection of the function, after one call. *)
Example fetchQueryAlerts_rejected :
  run alwaysFails (fetchQueryAlerts sampleImports {| qa_query := JObj []; qa_signal := None |})
  = ([HttpFetch "/api/detection_engine/signals/search"
        {| version := Some "2023-10-31"; method := Some "POST";
           body := Some (JSON_stringify (JObj [])); signal := None; query := None |}],
     Rejected (error "Internal Server Error")).
Proof. reflexivity. Qed.

(** C4: [updateAlertStatusByQuery] makes one POST to the signals status URL
    whose body is the JSON of an object with exactly the members
    [conflicts] (the string proceed), [status] (the target status) and
    [query] (the query); [updateAlertStatusByIds] makes one POST to the same
    URL whose body is the JSON of an object with exactly the members
    [status] and [signal_ids] (the list of ids); both carry the caller's
    abort signal. *)
Theorem updateAlertStatus_requests (imports : Imports) (env : Env)
  (q : UpdateAlertStatusByQueryProps) (i : UpdateAlertStatusByIdsProps) :
  (exists o j,
     run env (updateAlertStatusByQuery imports q)
     = ([HttpFetch (DETECTION_ENGINE_SIGNALS_STATUS_URL imports) o],
        env [] (HttpFetch (DETECTION_ENGINE_SIGNALS_STATUS_URL imports) o))
     /\ methodIs "POST" o = true
     /\ signal o = uq_signal q
     /\ body o = Some (JSON_stringify j)
     /\ keysOf j = ["conflicts"; "status"; "query"]
     /\ member "conflicts" j = Some (JStr "proceed")
     /\ member "status" j = Some (JStr (uq_status q))
     /\ member "query" j = Some (uq_query q))
  /\
  (exists o j,
     run env (updateAlertStatusByIds imports i)
     = ([HttpFetch (DETECTION_ENGINE_SIGNALS_STATUS_URL imports) o],
        env [] (HttpFetch (DETECTION_ENGINE_SIGNALS_STATUS_URL imports) o))
     /\ methodIs "POST" o = true
     /\ signal o = ui_signal i
     /\ body o = Some (JSON_stringify j)
     /\ keysOf j = ["status"; "signal_ids"]
     /\ member "status" j = Some (JStr (ui_status i))
     /\ member "signal_ids" j = Some (JArr (map JStr (ui_signalIds i)))).
Proof.
  split; do 2 eexists; (split; [ apply run_http_fetch | ]); repeat split.
Qed.

(** C8: [getCaseIdsFromAlertId] makes one GET to the cases-for-alert URL of
    the alert id, and its query has the member [owner] - then holding the
    owner list - if and only if the owner list is not empty. *)
Theorem getCaseIdsFromAlertId_request (imports : Imports) (env : Env) (a : CaseIdsProps) :
  exists o q,
    run env (getCaseIdsFromAlertId imports a)
    = ([HttpFetch (getCasesFromAlertsUrl imports (ci_alertId a)) o],
       env [] (HttpFetch (getCasesFromAlertsUrl imports (ci_alertId a)) o))
    /\ methodIs "GET" o = true
    /\ query o = Some q
    /\ (In "owner" (map fst q) <-> ci_owner a <> [])
    /\ (forall v, In ("owner", v) q -> v = ci_owner a).
Proof.
  do 2 eexists. split; [ apply run_http_fetch | ].
  cbn [query method methodIs]. repeat split.
  - destruct (ci_owner a); cbn; [ tauto | discriminate ].
  - destruct (ci_owner a); cbn; intros H; [ now contradiction H | now left ].
  - destruct (ci_owner a); cbn; intros v H; [ tauto | ].
    destruct H as [H | []]. congruence.
Qed.

End AlertsApiFacts.

(** ** The request-scoped APM event client *)

Module ApmClientFacts.
Import ApmClient.

Lemma Op_eqb_eq (a b : Op) : Op_eqb a b = true <-> a = b.
Proof.
  split.
  - destruct a as [ | | [ | ] ], b as [ | | [ | ] ]; simpl; congruence.
  - intros <-. destruct a as [ | | [ | ] ]; reflexivity.
Qed.

(** The stages are the computations the function passes through. *)
Lemma stateOf_Started (r : Resources) : stateOf r Started = getApmEventClient r.
Proof. reflexivity. Qed.

Lemma pending_stateOf (r : Resources) (s : Stage) : pending (stateOf r s) = waiting s.
Proof. destruct s; reflexivity. Qed.

Lemma settle_stateOf (env : Env) (r : Resources) (s : Stage) (op : Op) :
  settle env op (stateOf r s) = stateOf r (advance env s op).
Proof.
  destruct s, op as [ | | [ | ] ]; cbn;
    try reflexivity;
    match goal with
    | |- context [env ?o] => destruct (env o); reflexivity
    end.
Qed.

Lemma run_stateOf (env : Env) (r : Resources) (schedule : list Op) (s : Stage) :
  run env schedule (stateOf r s)
  = (stateOf r (fst (runStages env schedule s)), snd (runStages env schedule s)).
Proof.
  revert s. induction schedule as [ | op rest IH ]; intros s; [ reflexivity | ].
  cbn [run runStages]. rewrite pending_stateOf.
  destruct (existsb (Op_eqb op) (waiting s)).
  - rewrite settle_stateOf, IH.
    destruct (runStages env rest (advance env s op)); reflexivity.
  - apply IH.
Qed.

Lemma advance_agrees (env : Env) (s : Stage) (op : Op) :
  agrees env s -> agrees env (advance env s op).
Proof.
  destruct s, op as [ | | [ | ] ]; cbn; try tauto;
    match goal with
    | |- context [orElse (env ?o)] => destruct (env o) eqn:E; cbn; intuition congruence
    end.
Qed.

Lemma advance_resolvedIn (env : Env) (s : Stage) (op o : Op) :
  In o (resolvedIn (advance env s op)) -> In o (resolvedIn s) \/ o = op.
Proof.
  destruct s, op as [ | | [ | ] ]; cbn; try tauto;
    match goal with
    | |- context [orElse (env ?x)] => destruct (env x); cbn; intuition congruence
    end.
Qed.

(** Along a run the values held stay the environment's, and a lookup that
    has resolved by the end had resolved at the start or completed since. *)
Lemma runStages_invariant (env : Env) (schedule : list Op) :
  forall s, agrees env s ->
    agrees env (fst (runStages env schedule s))
    /\ forall o, In o (resolvedIn (fst (runStages env schedule s))) ->
                 In o (resolvedIn s) \/ In o (snd (runStages env schedule s)).
Proof.
  induction schedule as [ | op rest IH ]; intros s Hs; cbn [runStages].
  - cbn. tauto.
  - destruct (existsb (Op_eqb op) (waiting s)).
    + destruct (IH (advance env s op) (advance_agrees env s op Hs)) as [Ha Hr].
      destruct (runStages env rest (advance env s op)) as [s' done]; cbn in *.
      split; [ exact Ha | ].
      intros o Ho. destruct (Hr o Ho) as [H | H]; [ | tauto ].
      destruct (advance_resolvedIn env s op o H); [ tauto | subst; tauto ].
    + apply IH, Hs.
Qed.

Lemma advance_not_failed (env : Env) (s : Stage) (op : Op) :
  allResolve env -> failed s = false -> failed (advance env s op) = false.
Proof.
  intros Hall Hs.
  destruct s, op as [ | | [ | ] ]; cbn; try discriminate Hs;
    try assumption; try reflexivity;
    match goal with
    | |- context [orElse (env ?x)] =>
        destruct (Hall x) as [v Hv]; rewrite Hv; reflexivity
    end.
Qed.

Lemma runStages_not_failed (env : Env) (schedule : list Op) :
  allResolve env ->
  forall s, failed s = false -> failed (fst (runStages env schedule s)) = false.
Proof.
  intros Hall. induction schedule as [ | op rest IH ]; intros s Hs; cbn [runStages].
  - exact Hs.
  - destruct (existsb (Op_eqb op) (waiting s)).
    + specialize (IH _ (advance_not_failed env s op Hall Hs)).
      destruct (runStages env rest (advance env s op)); exact IH.
    + apply IH, Hs.
Qed.




(** The indices lookup and the settings lookups may complete in either
    order: both orders build the same client. *)
Lemma either_order_builds (env : Env) (r : Resources)
  (ctx : CoreContext) (ix : APMIndices) (f : bool) (t : list DataTier) :
  env ContextCore = Resolved ctx ->
  env GetApmIndices = Resolved ix ->
  env (UiSettingsGet SEARCH_INCLUDE_FROZEN) = Resolved f ->
  env (UiSettingsGet searchExcludedDataTiers) = Resolved t ->
  fst (run env [ContextCore; GetApmIndices; UiSettingsGet SEARCH_INCLUDE_FROZEN;
                UiSettingsGet searchExcludedDataTiers] (getApmEventClient r))
  = Return (clientOf r ctx ix f t)
  /\ fst (run env [ContextCore; UiSettingsGet SEARCH_INCLUDE_FROZEN;
                   UiSettingsGet searchExcludedDataTiers; GetApmIndices]
            (getApmEventClient r))
     = Return (clientOf r ctx ix f t).
Proof.
  intros H1 H2 H3 H4.
  rewrite <- stateOf_Started, !run_stateOf. cbn.
  repeat (cbn; rewrite ?H1, ?H2, ?H3, ?H4).
  split; reflexivity.
Qed.

(** The second settings lookup starts when the first has resolved: the
    two are awaited one after the other inside the inner function. *)
Lemma excluded_tiers_after_include_frozen (env : Env) (r : Resources)
  (ctx : CoreContext) (f : bool) :
  env ContextCore = Resolved ctx ->
  env (UiSettingsGet SEARCH_INCLUDE_FROZEN) = Resolved f ->
  pending (fst (run env [ContextCore; UiSettingsGet SEARCH_INCLUDE_FROZEN]
                  (getApmEventClient r)))
  = [GetApmIndices; UiSettingsGet searchExcludedDataTiers].
Proof.
  intros H1 H2.
  rewrite <- stateOf_Started, run_stateOf. cbn. rewrite H1. cbn. rewrite H2. reflexivity.
Qed.

(** A rejected lookup rejects the call and no client is constructed, but
    nothing is cancelled: the settings lookups still run their course. *)
Example rejected_indices_reject :
  let env := envOf (Resolved {| asCurrentUser := esClientOf "elastic" |})
                   (Rejected (error "index_not_found"))
                   (Resolved true) (Resolved []) in
  let after schedule := fst (run env schedule (getApmEventClient sampleResources)) in
  outcome (after [ContextCore; GetApmIndices]) = Some (Rejected (error "index_not_found"))
  /\ pending (after [ContextCore; GetApmIndices]) = [UiSettingsGet SEARCH_INCLUDE_FROZEN]
  /\ pending (after [ContextCore; GetApmIndices; UiSettingsGet SEARCH_INCLUDE_FROZEN])
     = [UiSettingsGet searchExcludedDataTiers]
  /\ after [ContextCore; GetApmIndices; UiSettingsGet SEARCH_INCLUDE_FROZEN;
            UiSettingsGet searchExcludedDataTiers]
     = Throw (error "index_not_found").
Proof. repeat split. Qed.

End ApmClientFacts.

(** ** The threat-match input *)

Module ThreatMatchFacts.
Import ThreatMatch.

Lemma Callback_eqb_eq (a b : Callback) : Callback_eqb a b = true <-> a = b.
Proof.
  destruct a as [i], b as [j]; cbn. rewrite Nat.eqb_eq.
  split; [ intros ->; reflexivity | intros H; injection H; auto ].
Qed.

Lemma Deps_eqb_eq (a b : Deps) : Deps_eqb a b = true <-> a = b.
Proof.
  destruct a as [[v1 i1] c1], b as [[v2 i2] c2]; cbn.
  rewrite !andb_true_iff, !Bool.eqb_true_iff.
  assert (Hc : option_eqb Callback_eqb c1 c2 = true <-> c1 = c2).
  { destruct c1 as [x | ], c2 as [y | ]; cbn; try (split; congruence).
    rewrite Callback_eqb_eq. split; congruence. }
  rewrite Hc. split; [ intros [[-> ->] ->]; reflexivity | intros H; injection H; auto ].
Qed.

Lemma lastReport_app (a b : list Event) :
  lastReport (a ++ b)
  = match lastReport b with Some x => Some x | None => lastReport a end.
Proof.
  unfold lastReport, validityReports. rewrite flat_map_app, map_app.
  set (xs := map Some (flat_map _ a)). set (ys := map Some (flat_map _ b)).
  assert (Hys : forall y, In y ys -> y <> None).
  { intros y Hy. apply in_map_iff in Hy. destruct Hy as [z [<- _]]. discriminate. }
  clearbody xs ys.
  induction ys as [ | y ys IH ] using rev_ind.
  - rewrite app_nil_r. reflexivity.
  - rewrite app_assoc, !last_last.
    destruct y as [x | ]; [ reflexivity | ].
    exfalso. apply (Hys None); [ apply in_or_app; right; left; reflexivity | reflexivity ].
Qed.

Section Facts.

Variable V : FieldHook -> FieldValidity.

(** A render leaves the hooks agreeing with what was rendered. *)
Lemma render_committed (p : ThreatMatchInputProps) (valid : bool) (prev : option Hooks) :
  committed V (fst (render V p valid prev)).
Proof.
  unfold committed, render; cbn.
  destruct prev as [h | ]; cbn.
  - split.
    + destruct (Deps_eqb (effectDeps h) _) eqn:E; cbn; [ | reflexivity ].
      apply Deps_eqb_eq in E. exact E.
    + destruct (Callback_eqb (builderSetValue h) (fh_setValue (threatMapping p))) eqn:E;
        [ apply Callback_eqb_eq in E; tauto | tauto ].
  - repeat split.
Qed.

(** What a render reports, when it reports. *)
Lemma render_reports (p : ThreatMatchInputProps) (valid : bool) (prev : option Hooks)
  (cb : Callback) (b : bool) :
  In (OnValidityChange cb b) (snd (render V p valid prev)) ->
  onValidityChange p = Some cb
  /\ b = combinedValidity V (fst (render V p valid prev)).
Proof.
  unfold render, combinedValidity; cbn.
  destruct (match prev with None => true | Some h => _ end); cbn; [ | tauto ].
  destruct (onValidityChange p) as [cb' | ]; cbn; [ | tauto ].
  intros [H | []]. injection H as -> <-. split; reflexivity.
Qed.

Lemma render_informed (inst : Instance) (evs0 : list Event)
  (p : ThreatMatchInputProps) (valid : bool) :
  committed V inst -> informed V inst evs0 ->
  informed V (fst (render V p valid (Some (hooks inst))))
           (evs0 ++ snd (render V p valid (Some (hooks inst)))).
Proof.
  intros [Hdeps _] Hinf cb Hcb. rewrite lastReport_app.
  unfold render, combinedValidity in *; cbn in *.
  destruct (Deps_eqb (effectDeps (hooks inst)) _) eqn:E; cbn.
  - apply Deps_eqb_eq in E. rewrite Hdeps in E. injection E as Ev Ei Ec.
    rewrite <- Ev, <- Ei. apply Hinf. congruence.
  - rewrite Hcb. reflexivity.
Qed.

Lemma step_committed (inst : Instance) (i : Input) :
  committed V inst -> committed V (fst (step V inst i)).
Proof.
  intros H. destruct i as [p | b | items]; cbn [step].
  - apply render_committed.
  - destruct (Bool.eqb b _); [ exact H | apply render_committed ].
  - exact H.
Qed.

Lemma step_informed (inst : Instance) (evs0 : list Event) (i : Input) :
  committed V inst -> informed V inst evs0 ->
  informed V (fst (step V inst i)) (evs0 ++ snd (step V inst i)).
Proof.
  intros Hc Hinf. destruct i as [p | b | items]; cbn [step].
  - apply render_informed; assumption.
  - destruct (Bool.eqb b _); cbn [fst snd].
    + rewrite app_nil_r. exact Hinf.
    + apply render_informed; assumption.
  - cbn [fst snd]. intros cb Hcb. rewrite lastReport_app. cbn. apply Hinf, Hcb.
Qed.

Lemma steps_invariant (inputs : list Input) :
  forall (inst : Instance) (evs0 : list Event),
    committed V inst -> informed V inst evs0 ->
    committed V (fst (steps V inst inputs))
    /\ informed V (fst (steps V inst inputs)) (evs0 ++ snd (steps V inst inputs)).
Proof.
  induction inputs as [ | i rest IH ]; intros inst evs0 Hc Hinf; cbn [steps].
  - cbn. rewrite app_nil_r. tauto.
  - pose proof (step_committed inst i Hc) as Hc1.
    pose proof (step_informed inst evs0 i Hc Hinf) as Hinf1.
    destruct (step V inst i) as [inst1 evs1]; cbn [fst snd] in *.
    specialize (IH inst1 (evs0 ++ evs1) Hc1 Hinf1).
    destruct (steps V inst1 rest) as [inst2 evs2]; cbn [fst snd] in *.
    rewrite app_assoc. exact IH.
Qed.

Lemma life_invariant (p : ThreatMatchInputProps) (inputs : list Input) :
  committed V (fst (life V p inputs))
  /\ informed V (fst (life V p inputs)) (snd (life V p inputs)).
Proof.
  unfold life.
  pose proof (render_committed p false None) as Hc.
  assert (Hinf : informed V (fst (mount V p)) (snd (mount V p))).
  { intros cb Hcb. unfold mount, render, combinedValidity in *; cbn in *.
    rewrite Hcb. reflexivity. }
  fold (mount V p) in Hc.
  destruct (mount V p) as [inst0 evs0]; cbn [fst snd] in *.
  pose proof (steps_invariant inputs inst0 evs0 Hc Hinf) as H.
  destruct (steps V inst0 inputs) as [inst evs]; exact H.
Qed.

Lemma steps_cons (inst : Instance) (i : Input) (rest : list Input) :
  steps V inst (i :: rest)
  = (fst (steps V (fst (step V inst i)) rest),
     snd (step V inst i) ++ snd (steps V (fst (step V inst i)) rest)).
Proof.
  cbn [steps]. destruct (step V inst i) as [inst1 evs1]. cbn [fst snd].
  destruct (steps V inst1 rest); reflexivity.
Qed.

Lemma life_steps (p : ThreatMatchInputProps) (inputs : list Input) :
  life V p inputs
  = (fst (steps V (fst (mount V p)) inputs),
     snd (mount V p) ++ snd (steps V (fst (mount V p)) inputs)).
Proof.
  unfold life. destruct (mount V p) as [inst0 evs0]. cbn [fst snd].
  destruct (steps V inst0 inputs); reflexivity.
Qed.


Lemma validityReports_app (a b : list Event) :
  validityReports (a ++ b) = validityReports a ++ validityReports b.
Proof. apply flat_map_app. Qed.

Lemma last_cons_default {A} (x d : A) (l : list A) : last (x :: l) d = last l x.
Proof.
  revert x d. induction l as [ | y tl IH ]; intros x d; [ reflexivity | ].
  change (last (x :: y :: tl) d) with (last (y :: tl) d).
  rewrite !IH. reflexivity.
Qed.

Lemma step_state (inst : Instance) (i : Input) :
  isThreatIndexPatternValid (hooks (fst (step V inst i)))
  = last (queryBarReports [i]) (isThreatIndexPatternValid (hooks inst))
  /\ props (fst (step V inst i)) = last (rerenders [i]) (props inst).
Proof.
  destruct i as [p' | b | items]; cbn [step]; [ split; reflexivity | | split; reflexivity ].
  destruct (Bool.eqb b _) eqn:E; [ | split; reflexivity ].
  apply Bool.eqb_prop in E. split; [ symmetry; exact E | reflexivity ].
Qed.

Lemma steps_state (inputs : list Input) :
  forall inst,
    isThreatIndexPatternValid (hooks (fst (steps V inst inputs)))
    = last (queryBarReports inputs) (isThreatIndexPatternValid (hooks inst))
    /\ props (fst (steps V inst inputs)) = last (rerenders inputs) (props inst).
Proof.
  induction inputs as [ | i rest IH ]; intros inst; [ split; reflexivity | ].
  rewrite steps_cons. cbn [fst].
  destruct (IH (fst (step V inst i))) as [IHv IHp]. rewrite IHv, IHp.
  destruct (step_state inst i) as [-> ->].
  destruct i as [p' | b | items]; cbn [queryBarReports rerenders flat_map app];
    rewrite ?last_cons_default; split; reflexivity.
Qed.

Lemma steps_app (inst : Instance) (a b : list Input) :
  steps V inst (a ++ b)
  = (fst (steps V (fst (steps V inst a)) b),
     snd (steps V inst a) ++ snd (steps V (fst (steps V inst a)) b)).
Proof.
  revert inst. induction a as [ | i rest IH ]; intros inst.
  - cbn [app steps fst snd]. destruct (steps V inst b); reflexivity.
  - cbn [app]. rewrite !steps_cons, IH. cbn [fst snd]. rewrite app_assoc. reflexivity.
Qed.

(** One more input adds the calls of one more step. *)
Lemma life_snoc (p : ThreatMatchInputProps) (before : list Input) (i : Input) :
  life V p (before ++ [i])
  = (fst (step V (fst (life V p before)) i),
     snd (life V p before) ++ snd (step V (fst (life V p before)) i)).
Proof.
  rewrite !life_steps, steps_app. cbn [fst snd].
  rewrite steps_cons. cbn [steps fst snd]. rewrite app_nil_r, app_assoc. reflexivity.
Qed.

(** The state and the props of a component are those its inputs brought. *)
Lemma life_state (p : ThreatMatchInputProps) (inputs : list Input) :
  isThreatIndexPatternValid (hooks (fst (life V p inputs)))
  = last (queryBarReports inputs) false
  /\ props (fst (life V p inputs)) = last (rerenders inputs) p.
Proof.
  rewrite life_steps. cbn [fst]. apply (steps_state inputs (fst (mount V p))).
Qed.

Lemma in_validityReports (evs : list Event) (cb : Callback) (b : bool) :
  In (cb, b) (validityReports evs) <-> In (OnValidityChange cb b) evs.
Proof.
  unfold validityReports. rewrite in_flat_map. split.
  - intros [e [He Hin]]. destruct e as [cb' b' | ]; [ | destruct Hin ].
    destruct Hin as [H | []]. injection H as -> ->. exact He.
  - intros H. exists (OnValidityChange cb b). split; [ exact H | left; reflexivity ].
Qed.

Lemma step_reports (inst : Instance) (i : Input) (cb : Callback) (b : bool) :
  In (OnValidityChange cb b) (snd (step V inst i)) ->
  onValidityChange (props (fst (step V inst i))) = Some cb
  /\ b = combinedValidity V (fst (step V inst i)).
Proof.
  intros Hin. destruct i as [p' | b' | items]; cbn [step] in *.
  - apply render_reports in Hin. exact Hin.
  - destruct (Bool.eqb b' _); [ destruct Hin | ].
    apply render_reports in Hin. exact Hin.
  - destruct Hin as [H | []]. discriminate H.
Qed.

(** Every report of a life is the combined validity of one of its moments. *)
Lemma reports_are_combined_validity (p : ThreatMatchInputProps) (inputs : list Input)
  (cb : Callback) (b : bool) :
  In (cb, b) (validityReports (snd (life V p inputs))) ->
  exists before after,
    inputs = before ++ after
    /\ onValidityChange (last (rerenders before) p) = Some cb
    /\ b = negb (isInvalid (V (threatMapping (last (rerenders before) p))))
           && last (queryBarReports before) false.
Proof.
  induction inputs as [ | i before IH ] using rev_ind.
  - intros Hin. apply in_validityReports in Hin.
    change (snd (life V p [])) with (snd (mount V p) ++ []) in Hin.
    rewrite app_nil_r in Hin. apply render_reports in Hin.
    exists [], []. split; [ reflexivity | exact Hin ].
  - rewrite life_snoc. cbn [snd]. rewrite validityReports_app.
    intros Hin. apply in_app_or in Hin. destruct Hin as [Hin | Hin].
    + destruct (IH Hin) as (b0 & a0 & -> & H).
      exists b0, (a0 ++ [i]). split; [ rewrite app_assoc; reflexivity | exact H ].
    + apply in_validityReports, step_reports in Hin.
      destruct (life_state p (before ++ [i])) as [Hv Hp].
      rewrite life_snoc in Hv, Hp. cbn [fst] in Hv, Hp.
      unfold combinedValidity in Hin. rewrite Hv, Hp in Hin.
      exists (before ++ [i]), []. split; [ rewrite app_nil_r; reflexivity | exact Hin ].
Qed.

(** C7: at every moment of the component's life, when the props of the
    latest render provide [onValidityChange], the latest call of it carried
    true exactly when the threat mapping field of those props is not
    invalid and the validity the query bar reported last is true; every
    call ever made carried that conjunction for the props and the query
    bar validity of the moment it was made; and a change reported by the
    list builder calls the [setValue] of the threat mapping field of the
    latest props with the entry items reported, and nothing else. *)
Theorem validity_forwarded_and_value_set (p : ThreatMatchInputProps) (inputs : list Input) :
  let current := last (rerenders inputs) p in
  let valid := last (queryBarReports inputs) false in
  (forall cb, onValidityChange current = Some cb ->
     lastReport (snd (life V p inputs))
     = Some (cb, negb (isInvalid (V (threatMapping current))) && valid))
  /\ (forall cb b,
        In (cb, b) (validityReports (snd (life V p inputs))) ->
        exists before after,
          inputs = before ++ after
          /\ onValidityChange (last (rerenders before) p) = Some cb
          /\ b = negb (isInvalid (V (threatMapping (last (rerenders before) p))))
                 && last (queryBarReports before) false)
  /\ (forall entryItems,
        snd (life V p (inputs ++ [BuilderChange entryItems]))
        = snd (life V p inputs)
          ++ [SetValue (fh_setValue (threatMapping current)) entryItems]).
Proof.
  intros current valid.
  destruct (life_invariant p inputs) as [[_ [Hview _]] Hinf].
  destruct (life_state p inputs) as [Hv Hp].
  fold valid in Hv. fold current in Hp.
  split; [ | split ].
  - intros cb Hcb. unfold informed, combinedValidity in Hinf.
    rewrite Hv, Hp in Hinf. apply Hinf, Hcb.
  - apply reports_are_combined_validity.
  - intros items. rewrite life_snoc. cbn [snd step].
    rewrite Hview, Hp. reflexivity.
Qed.

(** C10: the state of the threat index pattern validity starts as false,
    so when the parent provides [onValidityChange] at the first render, the
    first call of it reports false, whatever the validity of the threat
    mapping field and whatever happens afterwards. *)
Theorem first_report_is_false (p : ThreatMatchInputProps) (inputs : list Input)
  (cb : Callback) :
  onValidityChange p = Some cb ->
  isThreatIndexPatternValid (hooks (fst (mount V p))) = false
  /\ hd_error (validityReports (snd (life V p inputs))) = Some (cb, false).
Proof.
  intros Hcb. split; [ reflexivity | ].
  unfold life, mount, render; cbn. rewrite Hcb.
  destruct (steps V _ inputs) as [inst evs]; cbn.
  rewrite andb_false_r. reflexivity.
Qed.

End Facts.

Lemma validity_forwarded_and_value_set_witness :
  onValidityChange
    (last (rerenders [QueryBarValidity true;
                      Rerender (sampleProps ["required"] (Some (callback 2)))])
          (sampleProps [] (Some (callback 1))))
  = Some (callback 2)
  /\ lastReport (snd (life libraryValidity (sampleProps [] (Some (callback 1)))
                        [QueryBarValidity true;
                         Rerender (sampleProps ["required"] (Some (callback 2)))]))
     = Some (callback 2, false).
Proof.
  split; [ reflexivity | ].
  apply (proj1 (validity_forwarded_and_value_set libraryValidity
                  (sampleProps [] (Some (callback 1)))
                  [QueryBarValidity true;
                   Rerender (sampleProps ["required"] (Some (callback 2)))])
           (callback 2)).
  reflexivity.
Defined.

Lemma first_report_is_false_witness :
  onValidityChange (sampleProps [] (Some (callback 1))) = Some (callback 1)
  /\ hd_error (validityReports
                 (snd (life libraryValidity (sampleProps [] (Some (callback 1)))
                         [QueryBarValidity true; BuilderChange sampleEntries])))
     = Some (callback 1, false).
Proof.
  split; [ reflexivity | ].
  apply (first_report_is_false libraryValidity (sampleProps [] (Some (callback 1)))
           [QueryBarValidity true; BuilderChange sampleEntries] (callback 1)).
  reflexivity.
Defined.

(** A life on the sample props: mounted with a valid mapping, the query
    bar turns valid, the builder reports entries, the mapping gets errors. *)
Example sample_life :
  snd (life libraryValidity (sampleProps [] (Some (callback 1)))
         [QueryBarValidity true; BuilderChange sampleEntries;
          Rerender (sampleProps ["At least one indicator match is required."]
                      (Some (callback 1)))])
  = [OnValidityChange (callback 1) false;
     OnValidityChange (callback 1) true;
     SetValue (callback 7) sampleEntries;
     OnValidityChange (callback 1) false].
Proof. reflexivity. Qed.

(** When the callback is first provided after the query has become valid,
    its first call reports the validity of that moment. *)
Example late_callback_reports_current_validity :
  validityReports
    (snd (life libraryValidity (sampleProps [] None)
            [QueryBarValidity true; Rerender (sampleProps [] (Some (callback 1)))]))
  = [(callback 1, true)].
Proof. reflexivity. Qed.

End ThreatMatchFacts.

(** * Further properties *)

(** ** The lifecycle-policy form schema *)

Module IlmMore.
Import Ilm.

(** Whatever a lookup finds is among the fields the walk lists. *)
Lemma getField_allFields :
  forall (s : FormSchema) (prefix path : list string) (c : FieldConfig),
    getField s path = Some c -> In (prefix ++ path, c) (allFields prefix s).
Proof.
  fix IH 1. intros [c0 | ms] prefix path c.
  - destruct path; cbn; intros H; [ | discriminate H ].
    injection H as <-. rewrite app_nil_r. left. reflexivity.
  - destruct path as [ | k rest ]; cbn; [ discriminate | ].
    induction ms as [ | [k' child] tl IHtl ]; [ discriminate | ].
    destruct (String.eqb_spec k' k) as [-> | Hne]; intros H.
    + apply in_or_app. left.
      specialize (IH child (prefix ++ [k]) rest c H).
      rewrite <- app_assoc in IH. exact IH.
    + apply in_or_app. right. apply IHtl, H.
Qed.

Lemma distinctPaths_NoDup (l : list (list string)) :
  distinctPaths l = true -> NoDup l.
Proof.
  induction l as [ | x tl IH ]; cbn; intros H; [ constructor | ].
  apply andb_true_iff in H. destruct H as [Hx Htl].
  constructor; [ | apply IH, Htl ].
  intros Hin. apply negb_true_iff in Hx.
  assert (existsb (path_eqb x) tl = true); [ | congruence ].
  apply existsb_exists. exists x. split; [ exact Hin | ].
  unfold path_eqb. destruct (list_eq_dec string_dec x x); congruence.
Qed.

(** [includeCurrentPhase] puts the path of the phase itself in front of
    what the call without it gives. *)
Theorem downsample_include_current_phase (p : PhaseWithDownsample) :
  getDownsampleFieldsToValidateOnChange p true
  = intervalSizePath p :: getDownsampleFieldsToValidateOnChange p false.
Proof. destruct p; reflexivity. Qed.

(** X1: What a later phase re-validates, an earlier phase re-validates too: the
    list of the later phase is the tail end of the list of the earlier. *)
Theorem downsample_later_phase_is_suffix (p q : PhaseWithDownsample) (include : bool) :
  downsampleRank p <= downsampleRank q ->
  exists before,
    getDownsampleFieldsToValidateOnChange p include
    = before ++ getDownsampleFieldsToValidateOnChange q include
    /\ length before = downsampleRank q - downsampleRank p.
Proof.
  destruct p, q, include; cbn; intros H; try lia;
    match goal with
    | |- exists b, ?l = b ++ ?r /\ _ =>
        first [ exists [] ; split; reflexivity
              | exists (firstn 1 l); split; reflexivity
              | exists (firstn 2 l); split; reflexivity ]
    end.
Qed.

Lemma downsample_later_phase_is_suffix_witness :
  downsampleRank DownsampleHot <= downsampleRank DownsampleCold
  /\ exists before,
       getDownsampleFieldsToValidateOnChange DownsampleHot true
       = before ++ getDownsampleFieldsToValidateOnChange DownsampleCold true
       /\ length before = 2.
Proof.
  split; [ cbn; lia | ].
  apply (downsample_later_phase_is_suffix DownsampleHot DownsampleCold true).
  cbn; lia.
Defined.

Section More.

Variable defaultIndexPriority : PhaseWithPriority -> Value.
Variable CLOUD_DEFAULT_REPO : string.
Variable ROLLOVER_FORM_PATHS : list (string * string).

Local Notation "'schema'" :=
  (getSchema defaultIndexPriority CLOUD_DEFAULT_REPO ROLLOVER_FORM_PATHS).

(** Each listed field is what a lookup at its path finds. *)
Lemma allFields_getField (b : bool) :
  Forall (fun pc => getField (schema b) (fst pc) = Some (snd pc))
         (allFields [] (schema b)).
Proof. destruct b; repeat constructor. Qed.

Lemma allFields_distinct (b : bool) :
  distinctPaths (map fst (allFields [] (schema b))) = true.
Proof. destruct b; vm_compute; reflexivity. Qed.

(** The walk and the lookup agree on the schema: a field is listed at a
    path exactly when the lookup at that path finds it, and no path is
    listed twice - no key of the nested object literals hides another. *)
Lemma schema_walk_lookup_agree (b : bool) (path : list string) (c : FieldConfig) :
  (In (path, c) (allFields [] (schema b)) <-> getField (schema b) path = Some c)
  /\ NoDup (map fst (allFields [] (schema b))).
Proof.
  split; [ split | ].
  - intros Hin.
    exact (proj1 (Forall_forall _ _) (allFields_getField b) (path, c) Hin).
  - intros H. apply (getField_allFields _ [] path c H).
  - apply distinctPaths_NoDup, allFields_distinct.
Qed.

Ltac resolve_target :=
  let H := fresh in intros H; cbv in H; discriminate H.

Ltac check_field :=
  let paths := fresh "paths" in
  let H := fresh "H" in
  let t := fresh "t" in
  let Ht := fresh "Ht" in
  cbn [snd]; intros paths H t Ht; cbn in H;
  first [ discriminate H
        | injection H as <-;
          first [ solve [ auto ]
                | cbn in Ht;
                  repeat (destruct Ht as [<- | Ht]; [ resolve_target | ]);
                  destruct Ht ] ].

Lemma allFields_targets (b : bool) :
  (forall t, In t (rolloverFormPaths ROLLOVER_FORM_PATHS) -> fieldAt (schema b) t <> None) ->
  Forall (fun pc => forall paths, fieldsToValidateOnChange (snd pc) = Some paths ->
                    forall t, In t paths -> fieldAt (schema b) t <> None)
         (allFields [] (schema b)).
Proof.
  intros Hroll. destruct b; repeat (constructor; [ check_field | ]); constructor.
Qed.

(** X2: No re-validation path dangles: provided the imported rollover paths
    name fields of the schema, every path that any field of the schema
    lists in [fieldsToValidateOnChange] is the path of a field of the
    schema. *)
Theorem revalidation_targets_exist (b : bool)
  (path : list string) (c : FieldConfig) (paths : list string) (t : string) :
  (forall r, In r (rolloverFormPaths ROLLOVER_FORM_PATHS) -> fieldAt (schema b) r <> None) ->
  In (path, c) (allFields [] (schema b)) ->
  fieldsToValidateOnChange c = Some paths ->
  In t paths ->
  fieldAt (schema b) t <> None.
Proof.
  intros Hroll Hin Hc Ht.
  exact (proj1 (Forall_forall _ _) (allFields_targets b Hroll) (path, c) Hin paths Hc t Ht).
Qed.

Lemma requiredChecksFirst_schema (b : bool) : requiredChecksFirst (schema b) = true.
Proof. destruct b; vm_compute; reflexivity. Qed.

(** X3: In every field of the schema that validates its value, a required
    check ([emptyField]) is the first validator or is not there at all:
    the required message is never preceded by another validator. *)
Theorem required_check_comes_first (b : bool)
  (path : list string) (c : FieldConfig) (vs : list Validator) :
  In (path, c) (allFields [] (schema b)) ->
  validators c = Some vs ->
  requiredFirst vs = true.
Proof.
  intros Hin Hvs.
  pose proof (proj1 (forallb_forall _ _) (requiredChecksFirst_schema b) (path, c) Hin) as H.
  cbn [snd] in H. rewrite Hvs in H. exact H.
Qed.

(** X4: The hot, cold and frozen phases keep the very same searchable-snapshot
    fields - whatever is looked up below [searchable_snapshot] is found in
    the shared [searchableSnapshotFields] - and the warm and delete phases
    keep none. *)
Theorem searchable_snapshot_shared (b : bool) (rest : list string) :
  getField (schema b) (searchableSnapshotOf "hot" ++ rest)
  = getField searchableSnapshotFields rest
  /\ getField (schema b) (searchableSnapshotOf "cold" ++ rest)
     = getField searchableSnapshotFields rest
  /\ getField (schema b) (searchableSnapshotOf "frozen" ++ rest)
     = getField searchableSnapshotFields rest
  /\ getField (schema b) (searchableSnapshotOf "warm" ++ rest) = None
  /\ getField (schema b) (searchableSnapshotOf "delete" ++ rest) = None.
Proof. repeat split; reflexivity. Qed.

Lemma allFields_rollover (b : bool) :
  Forall (fun pc => forall k,
            fst pc = ["phases"; "hot"; "actions"; "rollover"; k] ->
            (exists others, validators (snd pc) = Some (rolloverThresholdsValidator :: others))
            /\ fieldsToValidateOnChange (snd pc)
               = Some (rolloverFormPaths ROLLOVER_FORM_PATHS))
         (allFields [] (schema b)).
Proof.
  destruct b;
    repeat (constructor;
            [ cbn [fst snd]; intros k Hk;
              first [ discriminate Hk
                    | split; [ eexists; reflexivity | reflexivity ] ]
            | ]);
    constructor.
Qed.

(** X5: The rollover thresholds are validated together: every field under
    [phases.hot.actions.rollover] runs the thresholds validator first and,
    on change, re-validates all the rollover paths. *)
Theorem rollover_thresholds_validate_together (b : bool) (k : string) (c : FieldConfig) :
  getField (schema b) ["phases"; "hot"; "actions"; "rollover"; k] = Some c ->
  (exists others, validators c = Some (rolloverThresholdsValidator :: others))
  /\ fieldsToValidateOnChange c = Some (rolloverFormPaths ROLLOVER_FORM_PATHS).
Proof.
  intros H. apply (getField_allFields _ []) in H. cbn [app] in H.
  exact (proj1 (Forall_forall _ _) (allFields_rollover b) _ H k eq_refl).
Qed.

End More.

Lemma rollover_thresholds_validate_together_witness :
  getField (sampleSchema false) ["phases"; "hot"; "actions"; "rollover"; "max_size"]
  = Some (object [ Label (I18nTexts "editPolicy.maxSizeLabel");
                   Validations [ {| validator := rolloverThresholdsValidator |};
                                 {| validator := ifExistsNumberGreaterThanZero |} ];
                   FieldsToValidateOnChange (rolloverFormPaths sampleRolloverPaths) ])
  /\ fieldsToValidateOnChange
       (object [ Label (I18nTexts "editPolicy.maxSizeLabel");
                 Validations [ {| validator := rolloverThresholdsValidator |};
                               {| validator := ifExistsNumberGreaterThanZero |} ];
                 FieldsToValidateOnChange (rolloverFormPaths sampleRolloverPaths) ])
     = Some (rolloverFormPaths sampleRolloverPaths).
Proof.
  split; [ reflexivity | ].
  apply (proj2 (rollover_thresholds_validate_together
                  sampleIndexPriority sampleCloudRepo sampleRolloverPaths
                  false "max_size" _ eq_refl)).
Defined.

Lemma revalidation_targets_exist_witness :
  (forall r, In r (rolloverFormPaths sampleRolloverPaths) ->
             fieldAt (sampleSchema true) r <> None)
  /\ In (["_meta"; "warm"; "minAgeToMilliSeconds"],
         object [DefaultValue (Some (VNum (-1)));
                 FieldsToValidateOnChange ["phases.warm.min_age"; "phases.cold.min_age";
                                           "phases.frozen.min_age"; "phases.delete.min_age"]])
        (allFields [] (sampleSchema true))
  /\ fieldAt (sampleSchema true) "phases.delete.min_age" <> None.
Proof.
  assert (Hroll : forall r, In r (rolloverFormPaths sampleRolloverPaths) ->
                            fieldAt (sampleSchema true) r <> None).
  { intros r Hr. cbn in Hr.
    repeat (destruct Hr as [<- | Hr]; [ discriminate | ]). destruct Hr. }
  assert (Hin : In (["_meta"; "warm"; "minAgeToMilliSeconds"],
                    object [DefaultValue (Some (VNum (-1)));
                            FieldsToValidateOnChange
                              ["phases.warm.min_age"; "phases.cold.min_age";
                               "phases.frozen.min_age"; "phases.delete.min_age"]])
                   (allFields [] (sampleSchema true))).
  { apply (getField_allFields (sampleSchema true) []). reflexivity. }
  split; [ exact Hroll | split; [ exact Hin | ] ].
  apply (revalidation_targets_exist sampleIndexPriority sampleCloudRepo sampleRolloverPaths
           true _ _ _ "phases.delete.min_age" Hroll Hin eq_refl).
  cbn. tauto.
Defined.

Lemma required_check_comes_first_witness :
  In (["phases"; "warm"; "min_age"], getMinAgeField TimingWarm None)
     (allFields [] (sampleSchema false))
  /\ requiredFirst [ emptyField (I18nTexts "editPolicy.errors.numberRequired");
                     ifExistsNumberNonNegative;
                     isInteger (I18nTexts "editPolicy.errors.integerRequired");
                     minAgeGreaterThanPreviousPhase TimingWarm ] = true.
Proof.
  assert (Hin : In (["phases"; "warm"; "min_age"], getMinAgeField TimingWarm None)
                   (allFields [] (sampleSchema false))).
  { apply (getField_allFields (sampleSchema false) []). reflexivity. }
  split; [ exact Hin | ].
  apply (required_check_comes_first sampleIndexPriority sampleCloudRepo sampleRolloverPaths
           false _ _ _ Hin).
  reflexivity.
Defined.

End IlmMore.

(** ** The alerts REST client *)

Module AlertsApiMore.
Import AlertsApi.

(** X6: Every fetch of the client is a GET without a body or a POST: no export
    sends a body with a GET. *)
Theorem fetches_are_bodyless_get_or_post (imports : Imports) (env : Env) (f : Exported)
  (path : string) (o : FetchOptions) :
  In (HttpFetch path o) (fst (run env (invoke imports f))) ->
  (methodIs "GET" o = true /\ body o = None) \/ methodIs "POST" o = true.
Proof.
  destruct f; cbn [invoke];
    unfold fetchQueryAlerts, fetchQueryRuleRegistryAlerts, updateAlertStatusByQuery,
      updateAlertStatusByIds, getSignalIndex, checkSignalIndex, getUserPrivilege,
      createSignalIndex, createHostIsolation, createHostUnIsolation,
      getCaseIdsFromAlertId, getHostMetadata, http_fetch, isolateHost, unIsolateHost;
    rewrite AlertsApiFacts.run_promiseOf; cbn [fst];
    intros [H | []]; try discriminate H;
    injection H as _ <-; cbn; auto.
Qed.

Lemma fetches_are_bodyless_get_or_post_witness :
  In (HttpFetch "/api/cases/alerts/alert-1"
        {| version := None; method := Some "get"; body := None; signal := None;
           query := Some [("owner", ["securitySolution"])] |})
     (fst (run alwaysOk (invoke sampleImports
             (GetCaseIdsFromAlertId
                {| ci_alertId := "alert-1"; ci_owner := ["securitySolution"] |}))))
  /\ ((methodIs "GET"
         {| version := None; method := Some "get"; body := None; signal := None;
            query := Some [("owner", ["securitySolution"])] |} = true
       /\ body {| version := None; method := Some "get"; body := None; signal := None;
                  query := Some [("owner", ["securitySolution"])] |} = None)
      \/ methodIs "POST"
           {| version := None; method := Some "get"; body := None; signal := None;
              query := Some [("owner", ["securitySolution"])] |} = true).
Proof.
  split; [ left; reflexivity | ].
  apply (fetches_are_bodyless_get_or_post sampleImports alwaysOk
           (GetCaseIdsFromAlertId
              {| ci_alertId := "alert-1"; ci_owner := ["securitySolution"] |})
           "/api/cases/alerts/alert-1").
  left. reflexivity.
Defined.

(** X7: The two status updates go to the same URL with the same method, yet
    their requests never coincide: the body of an update by query has the
    member [conflicts], the body of an update by ids has not. *)
Theorem status_updates_never_coincide (imports : Imports) (env : Env)
  (q : UpdateAlertStatusByQueryProps) (i : UpdateAlertStatusByIdsProps) :
  fst (run env (updateAlertStatusByQuery imports q))
  <> fst (run env (updateAlertStatusByIds imports i)).
Proof.
  unfold updateAlertStatusByQuery, updateAlertStatusByIds.
  rewrite !AlertsApiFacts.run_http_fetch. cbn [fst].
  intros H. injection H as H. discriminate H.
Qed.

End AlertsApiMore.

(** ** The request-scoped APM event client *)

Module ApmClientMore.
Import ApmClient.
Import ApmClientFacts.

Lemma existsb_Op_eqb (op : Op) (l : list Op) :
  existsb (Op_eqb op) l = true <-> In op l.
Proof.
  rewrite existsb_exists. split.
  - intros [x [Hx Heq]]. apply Op_eqb_eq in Heq. subst. exact Hx.
  - intros H. exists op. split; [ exact H | apply Op_eqb_eq; reflexivity ].
Qed.

Lemma runStages_pending (env : Env) (op : Op) (rest : list Op) (s : Stage) :
  existsb (Op_eqb op) (waiting s) = true ->
  runStages env (op :: rest) s
  = (fst (runStages env rest (advance env s op)),
     op :: snd (runStages env rest (advance env s op))).
Proof.
  intros H. cbn [runStages]. rewrite H.
  destruct (runStages env rest (advance env s op)); reflexivity.
Qed.

Lemma runStages_skipped (env : Env) (op : Op) (rest : list Op) (s : Stage) :
  existsb (Op_eqb op) (waiting s) = false ->
  runStages env (op :: rest) s = runStages env rest s.
Proof. intros H. cbn [runStages]. rewrite H. reflexivity. Qed.

(** Each step of a schedule either completes a pending lookup or is skipped. *)
Ltac step_schedule op s Hin :=
  destruct (existsb (Op_eqb op) (waiting s)) eqn:Hin;
  [ rewrite (runStages_pending _ op _ s Hin); apply existsb_Op_eqb in Hin
  | rewrite (runStages_skipped _ op _ s Hin) ].

Lemma runStages_settled (env : Env) (schedule : list Op) (s : Stage) :
  waiting s = [] -> runStages env schedule s = (s, []).
Proof.
  intros H. induction schedule as [ | op rest IH ]; [ reflexivity | ].
  rewrite runStages_skipped; [ exact IH | rewrite H; reflexivity ].
Qed.






(** Completions go on after a rejection: with the indices rejected first,
    both settings lookups still complete. *)
Example completions_after_rejection :
  snd (run (envOf (Resolved {| asCurrentUser := esClientOf "elastic" |})
              (Rejected (error "index_not_found")) (Resolved true) (Resolved []))
         [ContextCore; GetApmIndices; UiSettingsGet SEARCH_INCLUDE_FROZEN;
          UiSettingsGet searchExcludedDataTiers]
         (getApmEventClient sampleResources))
  = [ContextCore; GetApmIndices; UiSettingsGet SEARCH_INCLUDE_FROZEN;
     UiSettingsGet searchExcludedDataTiers].
Proof. reflexivity. Qed.

(** X9: When the core context is rejected, no lookup is ever started: the call
    is either still waiting for the context or has rejected with its error
    after that one completion. *)
Theorem rejected_context_starts_nothing (env : Env) (r : Resources)
  (schedule : list Op) (e : Error) :
  env ContextCore = Rejected e ->
  run env schedule (getApmEventClient r) = (getApmEventClient r, [])
  \/ run env schedule (getApmEventClient r) = (Throw e, [ContextCore]).
Proof.
  intros He. rewrite <- stateOf_Started, run_stateOf.
  assert (H : runStages env schedule Started = (Started, [])
              \/ runStages env schedule Started = (Failed e, [ContextCore])).
  { induction schedule as [ | op rest IH ]; [ left; reflexivity | ].
    step_schedule op Started Hin.
    - destruct Hin as [<- | []]. cbn [advance]. rewrite He. cbn [orElse].
      rewrite runStages_settled by reflexivity. right. reflexivity.
    - exact IH. }
  destruct H as [-> | ->]; [ left | right ]; reflexivity.
Qed.

Lemma rejected_context_starts_nothing_witness :
  envOf (Rejected (error "no context")) (Resolved []) (Resolved true) (Resolved [])
        ContextCore
  = Rejected (error "no context")
  /\ (run (envOf (Rejected (error "no context")) (Resolved []) (Resolved true) (Resolved []))
          [GetApmIndices; ContextCore; UiSettingsGet SEARCH_INCLUDE_FROZEN]
          (getApmEventClient sampleResources)
      = (getApmEventClient sampleResources, [])
      \/ run (envOf (Rejected (error "no context")) (Resolved []) (Resolved true) (Resolved []))
             [GetApmIndices; ContextCore; UiSettingsGet SEARCH_INCLUDE_FROZEN]
             (getApmEventClient sampleResources)
         = (Throw (error "no context"), [ContextCore])).
Proof.
  split; [ reflexivity | ].
  apply (rejected_context_starts_nothing _ sampleResources
           [GetApmIndices; ContextCore; UiSettingsGet SEARCH_INCLUDE_FROZEN]
           (error "no context")).
  reflexivity.
Defined.

Lemma advance_beforeFrozen (env : Env) (s : Stage) (op : Op) (e : Error) :
  env (UiSettingsGet SEARCH_INCLUDE_FROZEN) = Rejected e ->
  beforeFrozen s = true -> beforeFrozen (advance env s op) = true.
Proof.
  intros He. destruct s, op as [ | | [ | ] ]; cbn; intros Hs;
    try discriminate Hs; try reflexivity;
    try (rewrite He; reflexivity);
    match goal with
    | |- context [orElse (env ?o)] => destruct (env o); reflexivity
    end.
Qed.

Lemma runStages_beforeFrozen (env : Env) (schedule : list Op) (e : Error) :
  env (UiSettingsGet SEARCH_INCLUDE_FROZEN) = Rejected e ->
  forall s, beforeFrozen s = true ->
    ~ In (UiSettingsGet searchExcludedDataTiers) (snd (runStages env schedule s)).
Proof.
  intros He. induction schedule as [ | op rest IH ]; intros s Hs; [ intros [] | ].
  step_schedule op s Hin; cbn [snd].
  - intros [Hop | Hrest].
    + subst op. destruct s; cbn in Hs, Hin; try discriminate Hs;
        intuition discriminate.
    + exact (IH _ (advance_beforeFrozen env s op e He Hs) Hrest).
  - apply IH, Hs.
Qed.

(** X10: When the include-frozen lookup is rejected, the excluded-data-tiers
    lookup never completes, whatever the schedule: it is never started. *)
Theorem rejected_flag_skips_data_tiers (env : Env) (r : Resources)
  (schedule : list Op) (e : Error) :
  env (UiSettingsGet SEARCH_INCLUDE_FROZEN) = Rejected e ->
  ~ In (UiSettingsGet searchExcludedDataTiers)
       (snd (run env schedule (getApmEventClient r)))
  /\ ~ In (UiSettingsGet searchExcludedDataTiers)
          (pending (fst (run env schedule (getApmEventClient r)))).
Proof.
  intros He. rewrite <- stateOf_Started, run_stateOf. cbn [fst snd]. split.
  - apply (runStages_beforeFrozen env schedule e He Started eq_refl).
  - rewrite pending_stateOf.
    assert (H : beforeFrozen (fst (runStages env schedule Started)) = true).
    { generalize Started, (eq_refl : beforeFrozen Started = true).
      induction schedule as [ | op rest IH ]; intros s Hs; [ exact Hs | ].
      step_schedule op s Hin; cbn [fst].
      - apply IH, (advance_beforeFrozen env s op e He Hs).
      - apply IH, Hs. }
    destruct (fst (runStages env schedule Started)); cbn in H |- *;
      try discriminate H; intuition discriminate.
Qed.

Lemma rejected_flag_skips_data_tiers_witness :
  envOf (Resolved {| asCurrentUser := esClientOf "elastic" |})
        (Resolved []) (Rejected (error "settings unavailable")) (Resolved [])
        (UiSettingsGet SEARCH_INCLUDE_FROZEN)
  = Rejected (error "settings unavailable")
  /\ ~ In (UiSettingsGet searchExcludedDataTiers)
          (snd (run (envOf (Resolved {| asCurrentUser := esClientOf "elastic" |})
                       (Resolved []) (Rejected (error "settings unavailable")) (Resolved []))
                  [ContextCore; UiSettingsGet SEARCH_INCLUDE_FROZEN;
                   UiSettingsGet searchExcludedDataTiers; GetApmIndices]
                  (getApmEventClient sampleResources))).
Proof.
  split; [ reflexivity | ].
  apply (proj1 (rejected_flag_skips_data_tiers _ sampleResources
                  [ContextCore; UiSettingsGet SEARCH_INCLUDE_FROZEN;
                   UiSettingsGet searchExcludedDataTiers; GetApmIndices]
                  (error "settings unavailable") eq_refl)).
Defined.

(** The indices lookup, in flight when the flag is rejected, still
    completes; the excluded data tiers are never asked for. *)
Example indices_complete_after_rejected_flag :
  run (envOf (Resolved {| asCurrentUser := esClientOf "elastic" |})
         (Resolved []) (Rejected (error "settings unavailable")) (Resolved []))
      [ContextCore; UiSettingsGet SEARCH_INCLUDE_FROZEN;
       UiSettingsGet searchExcludedDataTiers; GetApmIndices]
      (getApmEventClient sampleResources)
  = (Throw (error "settings unavailable"),
     [ContextCore; UiSettingsGet SEARCH_INCLUDE_FROZEN; GetApmIndices]).
Proof. reflexivity. Qed.

Lemma waiting_unsettled (s : Stage) (op : Op) :
  In op (waiting s) -> In op (unsettled s).
Proof. destruct s; cbn; tauto. Qed.

Lemma advance_unsettled (env : Env) (s : Stage) (op o : Op) :
  In op (waiting s) ->
  In o (unsettled (advance env s op)) -> In o (unsettled s) /\ o <> op.
Proof.
  destruct s, op as [ | | [ | ] ]; cbn;
    try match goal with
        | |- context [orElse (env ?x)] => destruct (env x); cbn
        end;
    intuition (subst; try discriminate; auto).
Qed.

Lemma runStages_unsettled (env : Env) (schedule : list Op) :
  forall s, NoDup (snd (runStages env schedule s))
            /\ incl (snd (runStages env schedule s)) (unsettled s).
Proof.
  induction schedule as [ | op rest IH ]; intros s.
  - cbn. split; [ constructor | intros o [] ].
  - step_schedule op s Hin; cbn [snd]; [ | apply IH ].
    destruct (IH (advance env s op)) as [Hnd Hincl]. split.
    + constructor; [ | exact Hnd ].
      intros Hop. apply Hincl in Hop.
      destruct (advance_unsettled env s op op Hin Hop) as [_ Hne]. congruence.
    + intros o [<- | Ho]; [ apply waiting_unsettled, Hin | ].
      apply Hincl in Ho. apply (advance_unsettled env s op o Hin Ho).
Qed.

(** X11: No lookup completes twice, whatever the schedule asks for: a call
    sees at most four completions, one of the core context and one of each
    lookup. *)
Theorem each_lookup_completes_once (env : Env) (r : Resources) (schedule : list Op) :
  NoDup (snd (run env schedule (getApmEventClient r)))
  /\ length (snd (run env schedule (getApmEventClient r))) <= 4.
Proof.
  rewrite <- stateOf_Started, run_stateOf. cbn [snd].
  destruct (runStages_unsettled env schedule Started) as [Hnd Hincl].
  split; [ exact Hnd | ].
  apply (NoDup_incl_length Hnd Hincl).
Qed.

(** X12: The client does not depend on the order in which the lookups settle:
    when every lookup resolves, all the runs that leave nothing pending
    return one and the same client. *)
Theorem client_independent_of_schedule (env : Env) (r : Resources) :
  allResolve env ->
  exists c, forall schedule,
    pending (fst (run env schedule (getApmEventClient r))) = [] ->
    fst (run env schedule (getApmEventClient r)) = Return c.
Proof.
  intros Hall.
  destruct (Hall ContextCore) as [ctx Hctx].
  destruct (Hall GetApmIndices) as [ix Hix].
  destruct (Hall (UiSettingsGet SEARCH_INCLUDE_FROZEN)) as [f Hf].
  destruct (Hall (UiSettingsGet searchExcludedDataTiers)) as [t Ht].
  exists (clientOf r ctx ix f t). intros schedule.
  rewrite <- stateOf_Started, run_stateOf. cbn [fst]. rewrite pending_stateOf.
  pose proof (runStages_not_failed env schedule Hall Started eq_refl) as Hnf.
  destruct (runStages_invariant env schedule Started I) as [Hag _].
  destruct (fst (runStages env schedule Started)); cbn; intros Hw;
    try discriminate Hw; try discriminate Hnf.
  cbn in Hag. destruct Hag as (H1 & H2 & H3 & H4).
  rewrite Hctx in H1. rewrite Hix in H2. rewrite Hf in H3. rewrite Ht in H4.
  injection H1 as <-. injection H2 as <-. injection H3 as <-. injection H4 as <-.
  reflexivity.
Qed.

Lemma sampleEnv_allResolve : allResolve sampleEnv.
Proof. intros [ | | [ | ] ]; eexists; reflexivity. Qed.

Lemma client_independent_of_schedule_witness :
  allResolve sampleEnv
  /\ exists c, forall schedule,
       pending (fst (run sampleEnv schedule (getApmEventClient sampleResources))) = [] ->
       fst (run sampleEnv schedule (getApmEventClient sampleResources)) = Return c.
Proof.
  split; [ exact sampleEnv_allResolve | ].
  apply (client_independent_of_schedule sampleEnv sampleResources sampleEnv_allResolve).
Defined.

Lemma runStages_split (env : Env) (schedule : list Op) (op : Op) :
  forall (s : Stage) (before after : list Op),
    snd (runStages env schedule s) = before ++ op :: after ->
    exists s', In op (waiting s')
               /\ forall o, In o (resolvedIn s') -> In o (resolvedIn s) \/ In o before.
Proof.
  induction schedule as [ | o1 rest IH ]; intros s before after.
  - cbn. destruct before; discriminate.
  - step_schedule o1 s Hin; cbn [snd]; [ | apply IH ].
    destruct before as [ | b before' ]; cbn; intros H; injection H as <- H.
    + exists s. split; [ exact Hin | tauto ].
    + destruct (IH _ _ _ H) as (s' & Hw & Hr).
      exists s'. split; [ exact Hw | ].
      intros o Ho. destruct (Hr o Ho) as [H1 | H1]; [ | tauto ].
      destruct (advance_resolvedIn env s o1 o H1); [ tauto | subst; tauto ].
Qed.

Lemma waiting_needs (s : Stage) (op : Op) :
  In op (waiting s) ->
  (op <> ContextCore -> In ContextCore (resolvedIn s))
  /\ (op = UiSettingsGet searchExcludedDataTiers ->
      In (UiSettingsGet SEARCH_INCLUDE_FROZEN) (resolvedIn s)).
Proof.
  destruct s; cbn; intuition (subst; try discriminate; cbn; tauto).
Qed.

(** X13: Completions come in the order of the awaits: the core context
    completes before any lookup does, and the include-frozen flag before
    the excluded data tiers. *)
Theorem completions_follow_the_awaits (env : Env) (r : Resources) (schedule : list Op)
  (before after : list Op) (op : Op) :
  snd (run env schedule (getApmEventClient r)) = before ++ op :: after ->
  (op <> ContextCore -> In ContextCore before)
  /\ (op = UiSettingsGet searchExcludedDataTiers ->
      In (UiSettingsGet SEARCH_INCLUDE_FROZEN) before).
Proof.
  rewrite <- stateOf_Started, run_stateOf. cbn [snd]. intros H.
  destruct (runStages_split env schedule op Started before after H) as (s' & Hw & Hr).
  destruct (waiting_needs s' op Hw) as [Hcore Hfrozen].
  split; intros Hop.
  - destruct (Hr _ (Hcore Hop)) as [[] | Hin]. exact Hin.
  - destruct (Hr _ (Hfrozen Hop)) as [[] | Hin]. exact Hin.
Qed.

Lemma completions_follow_the_awaits_witness :
  snd (run sampleEnv
         [UiSettingsGet searchExcludedDataTiers; ContextCore;
          UiSettingsGet SEARCH_INCLUDE_FROZEN; UiSettingsGet searchExcludedDataTiers]
         (getApmEventClient sampleResources))
  = [ContextCore; UiSettingsGet SEARCH_INCLUDE_FROZEN]
    ++ UiSettingsGet searchExcludedDataTiers :: []
  /\ In (UiSettingsGet SEARCH_INCLUDE_FROZEN)
        [ContextCore; UiSettingsGet SEARCH_INCLUDE_FROZEN].
Proof.
  split; [ reflexivity | ].
  apply (proj2 (completions_follow_the_awaits sampleEnv sampleResources
                  [UiSettingsGet searchExcludedDataTiers; ContextCore;
                   UiSettingsGet SEARCH_INCLUDE_FROZEN;
                   UiSettingsGet searchExcludedDataTiers]
                  [ContextCore; UiSettingsGet SEARCH_INCLUDE_FROZEN] []
                  (UiSettingsGet searchExcludedDataTiers) eq_refl)).
  reflexivity.
Defined.

End ApmClientMore.

(** ** The threat-match input *)

Module ThreatMatchMore.
Import ThreatMatch.
Import ThreatMatchFacts.

Section More.

Variable V : FieldHook -> FieldValidity.

Lemma Deps_eqb_refl (d : Deps) : Deps_eqb d d = true.
Proof. apply Deps_eqb_eq. reflexivity. Qed.

(** X14: A render whose props bring the same field validity and the same
    callback as the props before calls nothing: the validity callback is
    not called again while nothing it reports has changed. *)
Theorem rerender_without_change_is_silent (p : ThreatMatchInputProps)
  (inputs : list Input) (p' : ThreatMatchInputProps) :
  isInvalid (V (threatMapping p'))
  = isInvalid (V (threatMapping (props (fst (life V p inputs))))) ->
  onValidityChange p' = onValidityChange (props (fst (life V p inputs))) ->
  snd (step V (fst (life V p inputs)) (Rerender p')) = [].
Proof.
  intros Hinv Hcb.
  destruct (life_invariant V p inputs) as [[Hdeps _] _].
  cbn [step]. unfold render. cbn [snd].
  rewrite Hdeps, Hinv, Hcb, Deps_eqb_refl. reflexivity.
Qed.

(** X15: Without a callback there is nothing to report: when neither the first
    props nor any later props provide [onValidityChange], no validity
    report is ever made. *)
Theorem no_callback_no_report (p : ThreatMatchInputProps) (inputs : list Input) :
  onValidityChange p = None ->
  (forall p', In p' (rerenders inputs) -> onValidityChange p' = None) ->
  validityReports (snd (life V p inputs)) = [].
Proof.
  intros Hp Hall. rewrite life_steps. cbn [snd].
  unfold validityReports. rewrite flat_map_app.
  assert (H0 : onValidityChange (props (fst (mount V p))) = None) by exact Hp.
  replace (flat_map _ (snd (mount V p))) with (@nil (Callback * bool))
    by (unfold mount, render; cbn; rewrite Hp; reflexivity).
  cbn [app]. revert H0 Hall. generalize (fst (mount V p)).
  induction inputs as [ | i rest IH ]; intros inst Hinst Hall; [ reflexivity | ].
  rewrite steps_cons. cbn [snd]. rewrite flat_map_app.
  assert (Hstep : onValidityChange (props (fst (step V inst i))) = None
                  /\ flat_map (fun e => match e with
                                        | OnValidityChange cb b => [(cb, b)]
                                        | SetValue _ _ => []
                                        end) (snd (step V inst i)) = []).
  { destruct i as [p' | b | items]; cbn [step].
    - assert (Hp' : onValidityChange p' = None) by (apply Hall; cbn; tauto).
      unfold render; cbn. rewrite Hp'.
      split; [ reflexivity | destruct (negb _); reflexivity ].
    - destruct (Bool.eqb b _); [ split; [ exact Hinst | reflexivity ] | ].
      unfold render; cbn. rewrite Hinst.
      split; [ reflexivity | destruct (negb _); reflexivity ].
    - split; [ exact Hinst | reflexivity ]. }
  destruct Hstep as [Hinst1 ->]. cbn [app].
  apply IH; [ exact Hinst1 | ].
  intros p' Hp'. apply Hall. destruct i; cbn; tauto.
Qed.

Lemma render_setValueCalls (p : ThreatMatchInputProps) (valid : bool) (prev : option Hooks) :
  setValueCalls (snd (render V p valid prev)) = []
  /\ length (validityReports (snd (render V p valid prev))) <= 1.
Proof.
  unfold render; cbn.
  destruct (match prev with None => true | Some h => _ end);
    [ destruct (onValidityChange p) | ]; cbn; split; auto.
Qed.

Lemma step_calls (inst : Instance) (i : Input) :
  setValueCalls (snd (step V inst i)) = reportedEntries [i]
  /\ length (validityReports (snd (step V inst i)))
     <= length (filter mayRender [i]).
Proof.
  destruct i as [p' | b | items]; cbn [step].
  - apply render_setValueCalls.
  - destruct (Bool.eqb b _); [ cbn; auto | apply render_setValueCalls ].
  - cbn. auto.
Qed.


(** X17: The validity callback is called at most once for the first
    render and, input by input, at most once for a re-render or a query-bar
    report and not at all for a change reported by the list builder: the
    calls a further input adds to the trace contain at most one validity
    report if the input can make the component render and none otherwise.
    So a life has at most one report more than it has such inputs. *)
Theorem reports_bounded_by_renders (p : ThreatMatchInputProps) (inputs : list Input) :
  length (validityReports (snd (life V p []))) <= 1
  /\ (forall i, exists evs,
        snd (life V p (inputs ++ [i])) = snd (life V p inputs) ++ evs
        /\ length (validityReports evs) <= length (filter mayRender [i])
        /\ (mayRender i = false -> validityReports evs = []))
  /\ length (validityReports (snd (life V p inputs)))
     <= 1 + length (filter mayRender inputs).
Proof.
  split; [ | split ].
  - change (snd (life V p [])) with (snd (mount V p) ++ []). rewrite app_nil_r.
    apply (proj2 (render_setValueCalls p false None)).
  - intros i. exists (snd (step V (fst (life V p inputs)) i)).
    rewrite life_snoc. cbn [snd].
    pose proof (proj2 (step_calls (fst (life V p inputs)) i)) as Hi.
    split; [ reflexivity | split; [ exact Hi | ] ].
    intros Hno. destruct i; cbn in Hno; try discriminate Hno. reflexivity.
  - rewrite life_steps. cbn [snd]. rewrite validityReports_app, length_app. unfold mount.
    pose proof (proj2 (render_setValueCalls p false None)) as H0.
    assert (Hs : forall inst,
               length (validityReports (snd (steps V inst inputs)))
               <= length (filter mayRender inputs)).
    { induction inputs as [ | i rest IH ]; intros inst; [ cbn; lia | ].
      rewrite steps_cons. cbn [snd]. rewrite validityReports_app, length_app.
      specialize (IH (fst (step V inst i))).
      pose proof (proj2 (step_calls inst i)) as Hi.
      change (i :: rest) with ([i] ++ rest). rewrite filter_app, length_app. lia. }
    specialize (Hs (fst (render V p false None))). lia.
Qed.

(** X18: The state cell holds what the query bar reported last - false while
    it has reported nothing - and the component shows the props of the
    last render the parent asked for. *)
Theorem state_is_last_query_bar_report (p : ThreatMatchInputProps) (inputs : list Input) :
  isThreatIndexPatternValid (hooks (fst (life V p inputs)))
  = last (queryBarReports inputs) false
  /\ props (fst (life V p inputs)) = last (rerenders inputs) p.
Proof. apply life_state. Qed.

End More.

Lemma rerender_without_change_is_silent_witness :
  isInvalid (libraryValidity (threatMapping (sampleProps [] (Some (callback 1)))))
  = isInvalid (libraryValidity
                 (threatMapping
                    (props (fst (life libraryValidity (sampleProps [] (Some (callback 1)))
                                   [QueryBarValidity true])))))
  /\ snd (step libraryValidity
            (fst (life libraryValidity (sampleProps [] (Some (callback 1)))
                    [QueryBarValidity true]))
            (Rerender (sampleProps [] (Some (callback 1))))) = [].
Proof.
  split; [ reflexivity | ].
  apply (rerender_without_change_is_silent libraryValidity
           (sampleProps [] (Some (callback 1))) [QueryBarValidity true]
           (sampleProps [] (Some (callback 1)))); reflexivity.
Defined.

Lemma no_callback_no_report_witness :
  onValidityChange (sampleProps [] None) = None
  /\ validityReports
       (snd (life libraryValidity (sampleProps [] None)
               [QueryBarValidity true; Rerender (sampleProps ["required"] None)])) = [].
Proof.
  split; [ reflexivity | ].
  apply (no_callback_no_report libraryValidity (sampleProps [] None)
           [QueryBarValidity true; Rerender (sampleProps ["required"] None)]).
  - reflexivity.
  - intros p' [<- | []]. reflexivity.
Defined.

End ThreatMatchMore.
